(** * MAV dynamics (chap4/mav_dynamics.py): a shallow embedding

    The Python module propagates a 13-element rigid-body state with a
    fixed-step RK4 integrator, renormalises the attitude quaternion and
    derives the air data (airspeed, angle of attack, sideslip).

    Numbers.  numpy's float64 values are idealised as real numbers: [+],
    [-], [*], [/] are the field operations of [R], [np.sqrt], [np.exp],
    [np.sin], [np.cos], [np.arctan], [np.arcsin] are the functions of the
    same name of the Reals library, and [np.pi] is [PI].  Rounding, overflow
    and the non-finite values of IEEE arithmetic are outside this model: a
    theorem that needs a quotient to be meaningful carries the hypothesis
    that the divisor is not zero.

    Arrays.  A numpy column vector is a [list R]; [x.item(i)] is [item x i];
    [x[a:b]] is [slice a b x].  A 3x3 matrix is a [Mat3].

    External modules.  [parameters.aerosonde_parameters] (the constants
    [MAV.*]), [tools.rotations] ([Quaternion2Rotation], [Quaternion2Euler])
    and [message_types.msg_state] ([MsgState]) are imported by the source
    and are taken as parameters of the development. *)

From Stdlib Require Import Reals Lra Lia List.
Import ListNotations.

Local Open Scope R_scope.

(** ** Arrays *)

Definition Vec := list R.

Definition item (x : Vec) (i : nat) : R := nth i x 0.

Definition slice (a b : nat) (x : Vec) : Vec := firstn (b - a) (skipn a x).

(** [x[i][0] = v]: overwrite the entry at index [i]. *)
Fixpoint set_item (x : Vec) (i : nat) (v : R) : Vec :=
  match x, i with
  | [], _ => []
  | _ :: t, O => v :: t
  | h :: t, S j => h :: set_item t j v
  end.

(** Elementwise sum and difference of two arrays of the same shape. *)
Fixpoint vadd (x y : Vec) : Vec :=
  match x, y with
  | a :: x', b :: y' => (a + b) :: vadd x' y'
  | _, _ => []
  end.

Fixpoint vsub (x y : Vec) : Vec :=
  match x, y with
  | a :: x', b :: y' => (a - b) :: vsub x' y'
  | _, _ => []
  end.

(** Scalar times array. *)
Definition vscale (c : R) (x : Vec) : Vec := map (Rmult c) x.

(** [np.linalg.norm] of a vector. *)
Definition sum_sq (x : Vec) : R := fold_right (fun a acc => a ^ 2 + acc) 0 x.

Definition norm (x : Vec) : R := sqrt (sum_sq x).

Definition Row3 := (R * R * R)%type.

Record Mat3 := mkMat3 { row0 : Row3; row1 : Row3; row2 : Row3 }.

Definition row_dot (r : Row3) (v : Vec) : R :=
  let '(a, b, c) := r in a * item v 0 + b * item v 1 + c * item v 2.

(** [M @ v] for a 3x3 matrix and a 3-vector. *)
Definition matvec (M : Mat3) (v : Vec) : Vec :=
  [row_dot (row0 M) v; row_dot (row1 M) v; row_dot (row2 M) v].

Definition row_scale (c : R) (r : Row3) : Row3 :=
  let '(a, b, d) := r in (a * c, b * c, d * c).

(** [M * col] with numpy broadcasting of a 3x1 column against a 3x3 array:
    row [i] of [M] is multiplied elementwise by entry [i] of the column. *)
Definition broadcast_mul (M : Mat3) (col : Vec) : Mat3 :=
  mkMat3 (row_scale (item col 0) (row0 M))
         (row_scale (item col 1) (row1 M))
         (row_scale (item col 2) (row2 M)).

(** [np.sign]. *)
Definition np_sign (x : R) : R :=
  if Rlt_dec x 0 then -1 else if Rlt_dec 0 x then 1 else 0.

(** [np.arctan2 y x], principal value in (-pi, pi]. *)
Definition arctan2 (y x : R) : R :=
  if Rlt_dec 0 x then atan (y / x)
  else if Rlt_dec x 0 then
         (if Rlt_dec y 0 then atan (y / x) - PI else atan (y / x) + PI)
  else if Rlt_dec 0 y then PI / 2
  else if Rlt_dec y 0 then - (PI / 2)
  else 0.

(** ** The constant table [MAV] (parameters.aerosonde_parameters) *)

Module MAV.

Record t := mk {
  north0 : R; east0 : R; down0 : R;
  u0 : R; v0 : R; w0 : R;
  e0 : R; e1 : R; e2 : R; e3 : R;
  p0 : R; q0 : R; r0 : R;
  mass : R; gravity : R; Jy : R;
  gamma1 : R; gamma2 : R; gamma3 : R; gamma4 : R;
  gamma5 : R; gamma6 : R; gamma7 : R; gamma8 : R;
  S_wing : R; b : R; c : R; rho : R; e : R; AR : R;
  M : R; alpha0 : R;
  C_L_0 : R; C_L_alpha : R; C_L_q : R; C_L_delta_e : R;
  C_D_p : R; C_D_q : R; C_D_delta_e : R;
  C_m_0 : R; C_m_alpha : R; C_m_q : R; C_m_delta_e : R;
  C_Y_0 : R; C_Y_beta : R; C_Y_p : R; C_Y_r : R;
  C_Y_delta_a : R; C_Y_delta_r : R;
  C_ell_0 : R; C_ell_beta : R; C_ell_p : R;
  C_ell_delta_a : R; C_ell_delta_r : R;
  C_n_0 : R; C_n_beta : R; C_n_p : R;
  C_n_delta_a : R; C_n_delta_r : R;
  D_prop : R; KQ : R; R_motor : R; i0 : R; V_max : R;
  C_Q0 : R; C_Q1 : R; C_Q2 : R;
  C_T0 : R; C_T1 : R; C_T2 : R
}.

End MAV.

(** ** Messages *)

(** The control input [delta]: the four attributes the source reads. *)
Record MsgDelta := mkDelta {
  aileron : R; elevator : R; rudder : R; throttle : R
}.

(** [MsgState]: the attributes [_update_true_state] assigns. *)
Module Msg.

Record MsgState := mk {
  north : R; east : R; altitude : R;
  Va : R; alpha : R; beta : R;
  phi : R; theta : R; psi : R;
  Vg : R; gamma : R; chi : R;
  p : R; q : R; r : R;
  wn : R; we : R
}.

End Msg.

(** ** The object [MavDynamics] *)

Record MavDynamics := mkMav {
  _ts_simulation : R;
  _state : Vec;
  _wind : Vec;
  _forces : Vec;
  _Va : R;
  _alpha : R;
  _beta : R;
  true_state : Msg.MsgState
}.

(** Field assignments on the object. *)
Definition set_state (m : MavDynamics) (s : Vec) : MavDynamics :=
  mkMav (_ts_simulation m) s (_wind m) (_forces m)
        (_Va m) (_alpha m) (_beta m) (true_state m).

Definition set_forces (m : MavDynamics) (f : Vec) : MavDynamics :=
  mkMav (_ts_simulation m) (_state m) (_wind m) f
        (_Va m) (_alpha m) (_beta m) (true_state m).

Definition set_Va (m : MavDynamics) (x : R) : MavDynamics :=
  mkMav (_ts_simulation m) (_state m) (_wind m) (_forces m)
        x (_alpha m) (_beta m) (true_state m).

Definition set_alpha (m : MavDynamics) (x : R) : MavDynamics :=
  mkMav (_ts_simulation m) (_state m) (_wind m) (_forces m)
        (_Va m) x (_beta m) (true_state m).

Definition set_beta (m : MavDynamics) (x : R) : MavDynamics :=
  mkMav (_ts_simulation m) (_state m) (_wind m) (_forces m)
        (_Va m) (_alpha m) x (true_state m).

Definition set_true_state (m : MavDynamics) (t : Msg.MsgState) : MavDynamics :=
  mkMav (_ts_simulation m) (_state m) (_wind m) (_forces m)
        (_Va m) (_alpha m) (_beta m) t.

(** ** General matrices (the 4x4 array of the quaternion kinematics) *)

Fixpoint dot (x y : Vec) : R :=
  match x, y with
  | a :: x', b :: y' => a * b + dot x' y'
  | _, _ => 0
  end.

Definition mat_scale (k : R) (A : list Vec) : list Vec := map (vscale k) A.

Definition mat_vec (A : list Vec) (v : Vec) : Vec := map (fun row => dot row v) A.

(** ** The methods of [MavDynamics] *)

Section Dynamics.

Variable P : MAV.t.
Variable Quaternion2Rotation : Vec -> Mat3.
Variable Quaternion2Euler : Vec -> R * R * R.
(** The freshly constructed message [MsgState()]. *)
Variable MsgState0 : Msg.MsgState.

(** [_derivatives(state, forces_moments)], lines 99-162. *)
Definition _derivatives (state forces_moments : Vec) : Vec :=
  let u := item state 3 in
  let v := item state 4 in
  let w := item state 5 in
  let e0 := item state 6 in
  let e1 := item state 7 in
  let e2 := item state 8 in
  let e3 := item state 9 in
  let p := item state 10 in
  let q := item state 11 in
  let r := item state 12 in
  let fx := item forces_moments 0 in
  let fy := item forces_moments 1 in
  let fz := item forces_moments 2 in
  let l := item forces_moments 3 in
  let m := item forces_moments 4 in
  let n := item forces_moments 5 in
  (* position kinematics *)
  let quaternion := [e0; e1; e2; e3] in
  let Rb_i := Quaternion2Rotation quaternion in
  let pos_dot := matvec Rb_i [u; v; w] in
  let north_dot := item pos_dot 0 in
  let east_dot := item pos_dot 1 in
  let down_dot := item pos_dot 2 in
  (* position dynamics *)
  let u_dot := (r * v - q * w) + (1 / MAV.mass P) * fx in
  let v_dot := (p * w - r * u) + (1 / MAV.mass P) * fy in
  let w_dot := (q * u - p * v) + (1 / MAV.mass P) * fz in
  (* rotational kinematics *)
  let skew_sym := [ [0; - p; - q; - r];
                    [p;   0;   r; - q];
                    [q; - r;   0;   p];
                    [r;   q; - p;   0] ] in
  let e_dot := mat_vec (mat_scale 0.5 skew_sym) quaternion in
  let e0_dot := item e_dot 0 in
  let e1_dot := item e_dot 1 in
  let e2_dot := item e_dot 2 in
  let e3_dot := item e_dot 3 in
  (* rotational dynamics *)
  let p_dot := MAV.gamma1 P * p * q - MAV.gamma2 P * q * r
               + MAV.gamma3 P * l + MAV.gamma4 P * n in
  let q_dot := MAV.gamma5 P * p * r - MAV.gamma6 P * (p ^ 2 - r ^ 2)
               + (1 / MAV.Jy P) * m in
  let r_dot := MAV.gamma7 P * p * q - MAV.gamma1 P * q * r
               + MAV.gamma4 P * l + MAV.gamma8 P * n in
  [north_dot; east_dot; down_dot; u_dot; v_dot; w_dot;
   e0_dot; e1_dot; e2_dot; e3_dot; p_dot; q_dot; r_dot].

(** The relative wind [v_air] of [_update_velocity_data], lines 165-171. *)
Definition air_velocity (m : MavDynamics) (wind : Vec) : Vec :=
  let steady_state := slice 0 3 wind in
  let gust := slice 3 6 wind in
  let Rb_i := Quaternion2Rotation (slice 6 10 (_state m)) in
  let wind_body_frame := vadd (matvec Rb_i steady_state) gust in
  vsub (slice 3 6 (_state m)) wind_body_frame.

(** [_update_velocity_data(wind)], lines 164-186.  The tests [ur == 0] and
    [self._Va == 0] are decided on the reals. *)
Definition _update_velocity_data (m : MavDynamics) (wind : Vec) : MavDynamics :=
  let v_air := air_velocity m wind in
  let ur := item v_air 0 in
  let vr := item v_air 1 in
  let wr := item v_air 2 in
  let m := set_Va m (norm v_air) in
  let m := if Req_dec_T ur 0 then set_alpha m 0
           else set_alpha m (atan (wr / ur)) in
  if Req_dec_T (_Va m) 0 then set_beta m 0
  else set_beta m (asin (vr / _Va m)).

(** [_motor_thrust_torque]: the coefficients of the quadratic in the motor
    speed, lines 246-252. *)
Definition motor_quadratic (Va delta_t : R) : R * R * R :=
  let V_in := MAV.V_max P * delta_t in
  let a := MAV.C_Q0 P * MAV.rho P * MAV.D_prop P ^ 5 / ((2 * PI) ^ 2) in
  let b := (MAV.C_Q1 P * MAV.rho P * MAV.D_prop P ^ 4 * Va / ((2 * PI) ^ 2))
           + (MAV.KQ P ^ 2) / MAV.R_motor P in
  let c := (MAV.C_Q2 P * MAV.rho P * MAV.D_prop P ^ 3 * Va ^ 2)
           - (MAV.KQ P / MAV.R_motor P) + MAV.KQ P * MAV.i0 P in
  (a, b, c).

(** [_motor_thrust_torque(Va, delta_t)], lines 243-268. *)
Definition _motor_thrust_torque (Va delta_t : R) : R * R :=
  let '(a, b, c) := motor_quadratic Va delta_t in
  (* operating propeller speed *)
  let Omega_op := (- b + sqrt (b ^ 2 - 4 * a * c)) / (2 * a) in
  (* advance ratio *)
  let J_op := 2 * PI * Va / (Omega_op * MAV.D_prop P) in
  (* thrust and torque coefficients *)
  let C_T := MAV.C_T2 P * J_op ^ 2 + MAV.C_T1 P * J_op + MAV.C_T0 P in
  let C_Q := MAV.C_Q2 P * J_op ^ 2 + MAV.C_Q1 P * J_op + MAV.C_Q0 P in
  let n := Omega_op / (2 * PI) in
  let thrust_prop := MAV.rho P * n ^ 2 * MAV.D_prop P ^ 4 * C_T in
  let torque_prop := MAV.rho P * n ^ 2 * MAV.D_prop P ^ 5 * C_Q in
  (thrust_prop, torque_prop).

(** The blending function [sigma] of [_forces_moments], lines 200-202. *)
Definition sigma (m : MavDynamics) : R :=
  let sigma_num := 1 + exp (- MAV.M P * (_alpha m - MAV.alpha0 P))
                     + exp (MAV.M P * (_alpha m + MAV.alpha0 P)) in
  let sigma_denom := (1 + exp (- MAV.M P * (_alpha m - MAV.alpha0 P)))
                     * (1 + exp (MAV.M P * (_alpha m + MAV.alpha0 P))) in
  sigma_num / sigma_denom.

(** The gravity term [f_g], lines 205-210: the product is numpy's [*] of a
    3x3 array with a 3x1 column. *)
Definition f_g (m : MavDynamics) : Mat3 :=
  let Rb_i := Quaternion2Rotation (slice 6 10 (_state m)) in
  broadcast_mul Rb_i [0; 0; MAV.mass P * MAV.gravity P].

(** Lift and drag coefficients, lines 213-214. *)
Definition CL (m : MavDynamics) : R :=
  ((1 - sigma m) * (MAV.C_L_0 P + MAV.C_L_alpha P * _alpha m))
  + (sigma m * 2 * np_sign (_alpha m) * (sin (_alpha m) ^ 2) * cos (_alpha m)).

Definition CD (m : MavDynamics) : R :=
  MAV.C_D_p P
  + ((MAV.C_L_0 P + MAV.C_L_alpha P * _alpha m) ^ 2) / (PI * MAV.e P * MAV.AR P).

(** Dynamic pressure times wing area, line 217. *)
Definition q_dynamic (m : MavDynamics) : R :=
  0.5 * MAV.rho P * (_Va m ^ 2) * MAV.S_wing P.

(** Lift and drag forces, lines 218-219. *)
Definition F_lift (m : MavDynamics) (delta : MsgDelta) : R :=
  let q := item (_state m) 11 in
  q_dynamic m * (CL m * (MAV.C_L_q P * 0.5 * MAV.c P / _Va m * q)
                 + MAV.C_L_delta_e P * elevator delta).

Definition F_drag (m : MavDynamics) (delta : MsgDelta) : R :=
  let q := item (_state m) 11 in
  q_dynamic m * (CD m * (MAV.C_D_q P * 0.5 * MAV.c P / _Va m * q)
                 + MAV.C_D_delta_e P * elevator delta).

(** [_forces_moments(delta)], lines 188-241: the returned 6-vector and the
    object with [_forces] overwritten.  Lift, drag, side force and the three
    moments divide by [_Va m]: the embedding stands for the source where the
    stored airspeed is not zero. *)
Definition _forces_moments (m : MavDynamics) (delta : MsgDelta)
  : Vec * MavDynamics :=
  let '(phi, theta, psi) := Quaternion2Euler (slice 6 10 (_state m)) in
  let p := item (_state m) 10 in
  let q := item (_state m) 11 in
  let r := item (_state m) 12 in
  let sigma := sigma m in
  (* gravitational forces *)
  let f_g := f_g m in
  (* lift and drag coefficients and forces *)
  let CL := CL m in
  let CD := CD m in
  let q_dynamic := q_dynamic m in
  let F_lift := F_lift m delta in
  let F_drag := F_drag m delta in
  (* propeller thrust and torque *)
  let '(thrust_prop, torque_prop) := _motor_thrust_torque (_Va m) (throttle delta) in
  (* longitudinal forces in body frame *)
  let fx := - F_drag * cos (_alpha m) + F_lift * sin (_alpha m) in
  let fz := - F_drag * sin (_alpha m) - F_lift * cos (_alpha m) in
  (* lateral forces in body frame *)
  let fy := q_dynamic * (MAV.C_Y_0 P + MAV.C_Y_beta P * _beta m
                         + MAV.C_Y_p P * 0.5 * MAV.b P * p / _Va m
                         + MAV.C_Y_r P * 0.5 * MAV.b P * r / _Va m
                         + MAV.C_Y_delta_a P * aileron delta
                         + MAV.C_Y_delta_r P * rudder delta) in
  (* longitudinal torque in body frame *)
  let My := q_dynamic * MAV.c P
            * (MAV.C_m_0 P + (MAV.C_m_alpha P * _alpha m)
               + (MAV.C_m_q P * MAV.c P * 0.5 * q / _Va m)
               + (MAV.C_m_delta_e P * elevator delta)) in
  (* lateral torques in body frame *)
  let Mx := q_dynamic * MAV.b P
            * (MAV.C_ell_0 P + MAV.C_ell_beta P * _beta m
               + MAV.C_ell_p P * 0.5 * MAV.b P * r / _Va m
               + MAV.C_ell_delta_a P * aileron delta
               + MAV.C_ell_delta_r P * rudder delta) in
  let Mz := q_dynamic * MAV.b P
            * (MAV.C_n_0 P + MAV.C_n_beta P * _beta m
               + MAV.C_n_p P * 0.5 * MAV.b P * r / _Va m
               + MAV.C_n_delta_a P * aileron delta
               + MAV.C_n_delta_r P * rudder delta) in
  let m := set_forces m (set_item (_forces m) 0 fx) in
  let m := set_forces m (set_item (_forces m) 1 fy) in
  let m := set_forces m (set_item (_forces m) 2 fz) in
  ([fx; fy; fz; Mx; My; Mz], m).

(** [_update_true_state()], lines 270-291.  The flight path angle divides by
    the ground speed: that field stands for the source where the ground
    speed is not zero. *)
Definition _update_true_state (m : MavDynamics) : MavDynamics :=
  let '(phi, theta, psi) := Quaternion2Euler (slice 6 10 (_state m)) in
  let pdot := matvec (Quaternion2Rotation (slice 6 10 (_state m)))
                     (slice 3 6 (_state m)) in
  let Vg := norm pdot in
  set_true_state m
    {| Msg.north := item (_state m) 0;
       Msg.east := item (_state m) 1;
       Msg.altitude := - item (_state m) 2;
       Msg.Va := _Va m;
       Msg.alpha := _alpha m;
       Msg.beta := _beta m;
       Msg.phi := phi;
       Msg.theta := theta;
       Msg.psi := psi;
       Msg.Vg := Vg;
       Msg.gamma := asin (item pdot 2 / Vg);
       Msg.chi := arctan2 (item pdot 1) (item pdot 0);
       Msg.p := item (_state m) 10;
       Msg.q := item (_state m) 11;
       Msg.r := item (_state m) 12;
       Msg.wn := item (_wind m) 0;
       Msg.we := item (_wind m) 1 |}.

(** The RK4 step of [update], lines 66-75: the object after
    [self._state += ...], before the quaternion is normalised. *)
Definition integrate (m : MavDynamics) (delta : MsgDelta) : MavDynamics :=
  let '(forces_moments, m) := _forces_moments m delta in
  let time_step := _ts_simulation m in
  let k1 := _derivatives (_state m) forces_moments in
  let k2 := _derivatives (vadd (_state m) (vscale (time_step / 2) k1))
                         forces_moments in
  let k3 := _derivatives (vadd (_state m) (vscale (time_step / 2) k2))
                         forces_moments in
  let k4 := _derivatives (vadd (_state m) (vscale time_step k3))
                         forces_moments in
  set_state m
    (vadd (_state m)
          (vscale (time_step / 6)
                  (vadd (vadd (vadd k1 (vscale 2 k2)) (vscale 2 k3)) k4))).

(** The normalisation of the quaternion in [update], lines 77-86. *)
Definition normalize_quaternion (m : MavDynamics) : MavDynamics :=
  let e0 := item (_state m) 6 in
  let e1 := item (_state m) 7 in
  let e2 := item (_state m) 8 in
  let e3 := item (_state m) 9 in
  let normE := sqrt (e0 ^ 2 + e1 ^ 2 + e2 ^ 2 + e3 ^ 2) in
  let m := set_state m (set_item (_state m) 6 (item (_state m) 6 / normE)) in
  let m := set_state m (set_item (_state m) 7 (item (_state m) 7 / normE)) in
  let m := set_state m (set_item (_state m) 8 (item (_state m) 8 / normE)) in
  let m := set_state m (set_item (_state m) 9 (item (_state m) 9 / normE)) in
  m.

(** [update(delta, wind)], lines 59-92. *)
Definition update (m : MavDynamics) (delta : MsgDelta) (wind : Vec)
  : MavDynamics :=
  let m := integrate m delta in
  let m := normalize_quaternion m in
  let m := _update_velocity_data m wind in
  _update_true_state m.

(** [external_set_state(new_state)], lines 94-95. *)
Definition external_set_state (m : MavDynamics) (new_state : Vec)
  : MavDynamics :=
  set_state m new_state.

(** [MavDynamics(Ts)], lines 23-55.  [_update_velocity_data()] runs with its
    default argument, six zeros, before [_forces], [_Va], [_alpha], [_beta]
    and [true_state] are assigned; [_update_velocity_unit_tests] only reads. *)
Definition init (Ts : R) : MavDynamics :=
  let m := {| _ts_simulation := Ts;
              _state := [MAV.north0 P; MAV.east0 P; MAV.down0 P;
                         MAV.u0 P; MAV.v0 P; MAV.w0 P;
                         MAV.e0 P; MAV.e1 P; MAV.e2 P; MAV.e3 P;
                         MAV.p0 P; MAV.q0 P; MAV.r0 P];
              _wind := [0; 0; 0];
              _forces := [];
              _Va := 0; _alpha := 0; _beta := 0;
              true_state := MsgState0 |} in
  let m := _update_velocity_data m [0; 0; 0; 0; 0; 0] in
  let m := set_forces m [0; 0; 0] in
  let m := set_Va m (MAV.u0 P) in
  let m := set_alpha m 0 in
  let m := set_beta m 0 in
  let m := set_true_state m MsgState0 in
  m.

(** A sequence of [update] calls on one object. *)
Definition run (m : MavDynamics) (calls : list (MsgDelta * Vec)) : MavDynamics :=
  fold_left (fun m call => update m (fst call) (snd call)) calls m.

End Dynamics.

(** Objects reachable from the constructor by [update] calls. *)
Inductive reachable (P : MAV.t) (Q2R : Vec -> Mat3) (Q2E : Vec -> R * R * R)
          (M0 : Msg.MsgState) (Ts : R) : MavDynamics -> Prop :=
| reach_init : reachable P Q2R Q2E M0 Ts (init P Q2R M0 Ts)
| reach_update m delta wind :
    reachable P Q2R Q2E M0 Ts m ->
    reachable P Q2R Q2E M0 Ts (update P Q2R Q2E m delta wind).

(** ** The formulas of the specification *)

(** Classical RK4 for [x' = f x] with step [dt]. *)
Definition rk4_step (f : Vec -> Vec) (dt : R) (x : Vec) : Vec :=
  let k1 := f x in
  let k2 := f (vadd x (vscale (dt / 2) k1)) in
  let k3 := f (vadd x (vscale (dt / 2) k2)) in
  let k4 := f (vadd x (vscale dt k3)) in
  vadd x (vscale (dt / 6) (vadd (vadd (vadd k1 (vscale 2 k2)) (vscale 2 k3)) k4)).

(** Lift as the specification writes it: the coefficient, the pitch-rate
    term and the elevator term are summed. *)
Definition lift_sum (P : MAV.t) (m : MavDynamics) (delta : MsgDelta) : R :=
  let q := item (_state m) 11 in
  q_dynamic P m * (CL P m + MAV.C_L_q P * (MAV.c P / (2 * _Va m)) * q
                   + MAV.C_L_delta_e P * elevator delta).

(** Drag as the specification writes it. *)
Definition drag_sum (P : MAV.t) (m : MavDynamics) (delta : MsgDelta) : R :=
  let q := item (_state m) 11 in
  q_dynamic P m * (CD P m + MAV.C_D_q P * (MAV.c P / (2 * _Va m)) * q
                   + MAV.C_D_delta_e P * elevator delta).

(** ** A sample instance of the external modules *)

(** The Aerosonde constants of Beard and McLain, Appendix E, level flight
    at 25 m/s and 100 m altitude as initial condition. *)
Definition aerosonde : MAV.t :=
  let Jx := 0.8244 in
  let Jy := 1.135 in
  let Jz := 1.759 in
  let Jxz := 0.1204 in
  let G := Jx * Jz - Jxz ^ 2 in
  let S_wing := 0.55 in
  let b := 2.8956 in
  {| MAV.north0 := 0; MAV.east0 := 0; MAV.down0 := -100;
     MAV.u0 := 25; MAV.v0 := 0; MAV.w0 := 0;
     MAV.e0 := 1; MAV.e1 := 0; MAV.e2 := 0; MAV.e3 := 0;
     MAV.p0 := 0; MAV.q0 := 0; MAV.r0 := 0;
     MAV.mass := 11; MAV.gravity := 9.81; MAV.Jy := Jy;
     MAV.gamma1 := (Jxz * (Jx - Jy + Jz)) / G;
     MAV.gamma2 := (Jz * (Jz - Jy) + Jxz ^ 2) / G;
     MAV.gamma3 := Jz / G;
     MAV.gamma4 := Jxz / G;
     MAV.gamma5 := (Jz - Jx) / Jy;
     MAV.gamma6 := Jxz / Jy;
     MAV.gamma7 := ((Jx - Jy) * Jx + Jxz ^ 2) / G;
     MAV.gamma8 := Jx / G;
     MAV.S_wing := S_wing; MAV.b := b; MAV.c := 0.18994;
     MAV.rho := 1.2682; MAV.e := 0.9; MAV.AR := b ^ 2 / S_wing;
     MAV.M := 50; MAV.alpha0 := 0.47;
     MAV.C_L_0 := 0.23; MAV.C_L_alpha := 5.61; MAV.C_L_q := 7.95;
     MAV.C_L_delta_e := 0.13;
     MAV.C_D_p := 0.043; MAV.C_D_q := 0; MAV.C_D_delta_e := 0.0135;
     MAV.C_m_0 := 0.0135; MAV.C_m_alpha := -2.74; MAV.C_m_q := -38.21;
     MAV.C_m_delta_e := -0.99;
     MAV.C_Y_0 := 0; MAV.C_Y_beta := -0.98; MAV.C_Y_p := 0; MAV.C_Y_r := 0;
     MAV.C_Y_delta_a := 0.075; MAV.C_Y_delta_r := 0.19;
     MAV.C_ell_0 := 0; MAV.C_ell_beta := -0.13; MAV.C_ell_p := -0.51;
     MAV.C_ell_delta_a := 0.17; MAV.C_ell_delta_r := 0.0024;
     MAV.C_n_0 := 0; MAV.C_n_beta := 0.073; MAV.C_n_p := 0.069;
     MAV.C_n_delta_a := -0.011; MAV.C_n_delta_r := -0.069;
     MAV.D_prop := 0.508; MAV.KQ := (1 / 145) * 60 / (2 * PI);
     MAV.R_motor := 0.042; MAV.i0 := 1.5; MAV.V_max := 44.4;
     MAV.C_Q0 := 0.005230; MAV.C_Q1 := 0.004970; MAV.C_Q2 := -0.01664;
     MAV.C_T0 := 0.09357; MAV.C_T1 := -0.06044; MAV.C_T2 := -0.1079 |}.

(** The usual rotation matrix of a scalar-first quaternion. *)
Definition quaternion_rotation (quat : Vec) : Mat3 :=
  let e0 := item quat 0 in
  let e1 := item quat 1 in
  let e2 := item quat 2 in
  let e3 := item quat 3 in
  mkMat3
    (e1 ^ 2 + e0 ^ 2 - e2 ^ 2 - e3 ^ 2, 2 * (e1 * e2 - e3 * e0), 2 * (e1 * e3 + e2 * e0))
    (2 * (e1 * e2 + e3 * e0), e2 ^ 2 + e0 ^ 2 - e1 ^ 2 - e3 ^ 2, 2 * (e2 * e3 - e1 * e0))
    (2 * (e1 * e3 - e2 * e0), 2 * (e2 * e3 + e1 * e0), e3 ^ 2 + e0 ^ 2 - e1 ^ 2 - e2 ^ 2).

(** The usual Euler angles (roll, pitch, yaw) of a scalar-first quaternion. *)
Definition quaternion_euler (quat : Vec) : R * R * R :=
  let e0 := item quat 0 in
  let e1 := item quat 1 in
  let e2 := item quat 2 in
  let e3 := item quat 3 in
  (arctan2 (2 * (e0 * e1 + e2 * e3)) (e0 ^ 2 + e3 ^ 2 - e1 ^ 2 - e2 ^ 2),
   asin (2 * (e0 * e2 - e1 * e3)),
   arctan2 (2 * (e0 * e3 + e1 * e2)) (e0 ^ 2 + e1 ^ 2 - e2 ^ 2 - e3 ^ 2)).

Definition msg_zero : Msg.MsgState :=
  Msg.mk 0 0 0 0 0 0 0 0 0 0 0 0 0 0 0 0 0.

(** The sample aircraft with a step of 10 ms, as in the driver script. *)
Definition mav0 : MavDynamics :=
  init aerosonde quaternion_rotation msg_zero 0.01.

(** Controls that hold the pitching moment at zero in level flight. *)
Definition delta_trim : MsgDelta :=
  {| aileron := 0; elevator := 3 / 220; rudder := 0; throttle := 0.5 |}.

Definition zero_wind : Vec := [0; 0; 0; 0; 0; 0].

(** ** Variations of the constant table *)

(** The table [P] with another gravitational acceleration. *)
Definition with_gravity (P : MAV.t) (g : R) : MAV.t :=
  {| MAV.north0 := MAV.north0 P; MAV.east0 := MAV.east0 P;
     MAV.down0 := MAV.down0 P; MAV.u0 := MAV.u0 P; MAV.v0 := MAV.v0 P;
     MAV.w0 := MAV.w0 P; MAV.e0 := MAV.e0 P; MAV.e1 := MAV.e1 P;
     MAV.e2 := MAV.e2 P; MAV.e3 := MAV.e3 P; MAV.p0 := MAV.p0 P;
     MAV.q0 := MAV.q0 P; MAV.r0 := MAV.r0 P; MAV.mass := MAV.mass P;
     MAV.gravity := g; MAV.Jy := MAV.Jy P; MAV.gamma1 := MAV.gamma1 P;
     MAV.gamma2 := MAV.gamma2 P; MAV.gamma3 := MAV.gamma3 P;
     MAV.gamma4 := MAV.gamma4 P; MAV.gamma5 := MAV.gamma5 P;
     MAV.gamma6 := MAV.gamma6 P; MAV.gamma7 := MAV.gamma7 P;
     MAV.gamma8 := MAV.gamma8 P; MAV.S_wing := MAV.S_wing P; MAV.b := MAV.b P;
     MAV.c := MAV.c P; MAV.rho := MAV.rho P; MAV.e := MAV.e P;
     MAV.AR := MAV.AR P; MAV.M := MAV.M P; MAV.alpha0 := MAV.alpha0 P;
     MAV.C_L_0 := MAV.C_L_0 P; MAV.C_L_alpha := MAV.C_L_alpha P;
     MAV.C_L_q := MAV.C_L_q P; MAV.C_L_delta_e := MAV.C_L_delta_e P;
     MAV.C_D_p := MAV.C_D_p P; MAV.C_D_q := MAV.C_D_q P;
     MAV.C_D_delta_e := MAV.C_D_delta_e P; MAV.C_m_0 := MAV.C_m_0 P;
     MAV.C_m_alpha := MAV.C_m_alpha P; MAV.C_m_q := MAV.C_m_q P;
     MAV.C_m_delta_e := MAV.C_m_delta_e P; MAV.C_Y_0 := MAV.C_Y_0 P;
     MAV.C_Y_beta := MAV.C_Y_beta P; MAV.C_Y_p := MAV.C_Y_p P;
     MAV.C_Y_r := MAV.C_Y_r P; MAV.C_Y_delta_a := MAV.C_Y_delta_a P;
     MAV.C_Y_delta_r := MAV.C_Y_delta_r P; MAV.C_ell_0 := MAV.C_ell_0 P;
     MAV.C_ell_beta := MAV.C_ell_beta P; MAV.C_ell_p := MAV.C_ell_p P;
     MAV.C_ell_delta_a := MAV.C_ell_delta_a P;
     MAV.C_ell_delta_r := MAV.C_ell_delta_r P; MAV.C_n_0 := MAV.C_n_0 P;
     MAV.C_n_beta := MAV.C_n_beta P; MAV.C_n_p := MAV.C_n_p P;
     MAV.C_n_delta_a := MAV.C_n_delta_a P;
     MAV.C_n_delta_r := MAV.C_n_delta_r P; MAV.D_prop := MAV.D_prop P;
     MAV.KQ := MAV.KQ P; MAV.R_motor := MAV.R_motor P; MAV.i0 := MAV.i0 P;
     MAV.V_max := MAV.V_max P; MAV.C_Q0 := MAV.C_Q0 P; MAV.C_Q1 := MAV.C_Q1 P;
     MAV.C_Q2 := MAV.C_Q2 P; MAV.C_T0 := MAV.C_T0 P; MAV.C_T1 := MAV.C_T1 P;
     MAV.C_T2 := MAV.C_T2 P |}.

(** The table [P] with the propeller and motor constants of [Q]. *)
Definition with_propulsion (P Q : MAV.t) : MAV.t :=
  {| MAV.north0 := MAV.north0 P; MAV.east0 := MAV.east0 P;
     MAV.down0 := MAV.down0 P; MAV.u0 := MAV.u0 P; MAV.v0 := MAV.v0 P;
     MAV.w0 := MAV.w0 P; MAV.e0 := MAV.e0 P; MAV.e1 := MAV.e1 P;
     MAV.e2 := MAV.e2 P; MAV.e3 := MAV.e3 P; MAV.p0 := MAV.p0 P;
     MAV.q0 := MAV.q0 P; MAV.r0 := MAV.r0 P; MAV.mass := MAV.mass P;
     MAV.gravity := MAV.gravity P; MAV.Jy := MAV.Jy P;
     MAV.gamma1 := MAV.gamma1 P; MAV.gamma2 := MAV.gamma2 P;
     MAV.gamma3 := MAV.gamma3 P; MAV.gamma4 := MAV.gamma4 P;
     MAV.gamma5 := MAV.gamma5 P; MAV.gamma6 := MAV.gamma6 P;
     MAV.gamma7 := MAV.gamma7 P; MAV.gamma8 := MAV.gamma8 P;
     MAV.S_wing := MAV.S_wing P; MAV.b := MAV.b P; MAV.c := MAV.c P;
     MAV.rho := MAV.rho P; MAV.e := MAV.e P; MAV.AR := MAV.AR P;
     MAV.M := MAV.M P; MAV.alpha0 := MAV.alpha0 P; MAV.C_L_0 := MAV.C_L_0 P;
     MAV.C_L_alpha := MAV.C_L_alpha P; MAV.C_L_q := MAV.C_L_q P;
     MAV.C_L_delta_e := MAV.C_L_delta_e P; MAV.C_D_p := MAV.C_D_p P;
     MAV.C_D_q := MAV.C_D_q P; MAV.C_D_delta_e := MAV.C_D_delta_e P;
     MAV.C_m_0 := MAV.C_m_0 P; MAV.C_m_alpha := MAV.C_m_alpha P;
     MAV.C_m_q := MAV.C_m_q P; MAV.C_m_delta_e := MAV.C_m_delta_e P;
     MAV.C_Y_0 := MAV.C_Y_0 P; MAV.C_Y_beta := MAV.C_Y_beta P;
     MAV.C_Y_p := MAV.C_Y_p P; MAV.C_Y_r := MAV.C_Y_r P;
     MAV.C_Y_delta_a := MAV.C_Y_delta_a P;
     MAV.C_Y_delta_r := MAV.C_Y_delta_r P; MAV.C_ell_0 := MAV.C_ell_0 P;
     MAV.C_ell_beta := MAV.C_ell_beta P; MAV.C_ell_p := MAV.C_ell_p P;
     MAV.C_ell_delta_a := MAV.C_ell_delta_a P;
     MAV.C_ell_delta_r := MAV.C_ell_delta_r P; MAV.C_n_0 := MAV.C_n_0 P;
     MAV.C_n_beta := MAV.C_n_beta P; MAV.C_n_p := MAV.C_n_p P;
     MAV.C_n_delta_a := MAV.C_n_delta_a P;
     MAV.C_n_delta_r := MAV.C_n_delta_r P; MAV.D_prop := MAV.D_prop Q;
     MAV.KQ := MAV.KQ Q; MAV.R_motor := MAV.R_motor Q; MAV.i0 := MAV.i0 Q;
     MAV.V_max := MAV.V_max Q; MAV.C_Q0 := MAV.C_Q0 Q; MAV.C_Q1 := MAV.C_Q1 Q;
     MAV.C_Q2 := MAV.C_Q2 Q; MAV.C_T0 := MAV.C_T0 Q; MAV.C_T1 := MAV.C_T1 Q;
     MAV.C_T2 := MAV.C_T2 Q |}.

Definition with_throttle (delta : MsgDelta) (t : R) : MsgDelta :=
  {| aileron := aileron delta; elevator := elevator delta;
     rudder := rudder delta; throttle := t |}.

(** ** Locals of the source named for the statements below *)

(** The motor speed [Omega_op] of [_motor_thrust_torque], line 255. *)
Definition Omega_op (P : MAV.t) (Va delta_t : R) : R :=
  let '(a, b, c) := motor_quadratic P Va delta_t in
  (- b + sqrt (b ^ 2 - 4 * a * c)) / (2 * a).

(** The two lift models blended at line 213: the linear one and the flat
    plate. *)
Definition CL_linear (P : MAV.t) (m : MavDynamics) : R :=
  MAV.C_L_0 P + MAV.C_L_alpha P * _alpha m.

Definition CL_flat_plate (m : MavDynamics) : R :=
  2 * np_sign (_alpha m) * (sin (_alpha m) ^ 2) * cos (_alpha m).

(** The inertial velocity [pdot] of [_update_true_state], line 274. *)
Definition pdot (Q2R : Vec -> Mat3) (m : MavDynamics) : Vec :=
  matvec (Q2R (slice 6 10 (_state m))) (slice 3 6 (_state m)).

(** A state moved by [d] in position: entries 0 to 2 shifted, the rest kept. *)
Definition translate (d : Vec) (s : Vec) : Vec :=
  vadd (firstn 3 s) d ++ skipn 3 s.

(** Scenarios of the driver script on the sample aircraft: velocity
    (1, 0, 0), and velocity (0, 0, 0) with a steady wind of 1 m/s to the
    north. *)
Definition mav_axial : MavDynamics :=
  external_set_state mav0 [0; 0; -100; 1; 0; 0; 1; 0; 0; 0; 0; 0; 0].

Definition mav_still : MavDynamics :=
  external_set_state mav0 [0; 0; -100; 0; 0; 0; 1; 0; 0; 0; 0; 0; 0].

Definition north_wind : Vec := [1; 0; 0; 0; 0; 0].

(** * Properties *)

(** ** Arrays *)

Lemma length_vadd (x y : Vec) : length (vadd x y) = Nat.min (length x) (length y).
Proof.
  revert y; induction x as [|a x IH]; intros [|b0 y]; simpl; auto.
Qed.

Lemma length_vsub (x y : Vec) : length (vsub x y) = Nat.min (length x) (length y).
Proof.
  revert y; induction x as [|a x IH]; intros [|b0 y]; simpl; auto.
Qed.

Lemma length_vscale (k : R) (x : Vec) : length (vscale k x) = length x.
Proof. apply length_map. Qed.

Lemma length_set_item (x : Vec) (i : nat) (v : R) :
  length (set_item x i v) = length x.
Proof.
  revert i; induction x as [|a x IH]; intros [|i]; simpl; auto.
Qed.

Lemma item_set_item_same (x : Vec) (i : nat) (v : R) :
  (i < length x)%nat -> item (set_item x i v) i = v.
Proof.
  unfold item; revert i; induction x as [|a x IH]; intros [|i] H; simpl in *;
    try lia; auto.
  apply IH; lia.
Qed.

Lemma item_set_item_other (x : Vec) (i j : nat) (v : R) :
  i <> j -> item (set_item x i v) j = item x j.
Proof.
  unfold item; revert i j; induction x as [|a x IH]; intros [|i] [|j] H;
    simpl; auto; try congruence.
Qed.

Lemma item_vadd (x y : Vec) (i : nat) :
  length x = length y -> item (vadd x y) i = item x i + item y i.
Proof.
  unfold item; revert y i; induction x as [|a x IH]; intros [|b0 y] [|i] H;
    simpl in *; try discriminate; try lra.
  - apply IH; congruence.
Qed.

Lemma item_vscale (k : R) (x : Vec) (i : nat) :
  item (vscale k x) i = k * item x i.
Proof.
  unfold item, vscale; revert i; induction x as [|a x IH]; intros [|i];
    simpl; try lra; auto.
Qed.

Lemma slice_items_6_10 (x : Vec) :
  (10 <= length x)%nat ->
  slice 6 10 x = [item x 6; item x 7; item x 8; item x 9].
Proof.
  intros H; unfold slice, item.
  do 10 (destruct x as [|? x]; [simpl in H; lia|]); reflexivity.
Qed.

Lemma length_slice_le (a n : nat) (x : Vec) :
  (length (slice a (a + n) x) <= n)%nat.
Proof.
  unfold slice. replace (a + n - a)%nat with n by lia.
  rewrite length_firstn. lia.
Qed.

(** ** The methods leave alone what they do not assign *)

Section Frame.

Variable P : MAV.t.
Variable Q2R : Vec -> Mat3.
Variable Q2E : Vec -> R * R * R.

Lemma forces_moments_frame (m : MavDynamics) (delta : MsgDelta) :
  let m' := snd (_forces_moments P Q2R Q2E m delta) in
  _state m' = _state m /\ _ts_simulation m' = _ts_simulation m /\
  _wind m' = _wind m /\ true_state m' = true_state m.
Proof.
  unfold _forces_moments.
  destruct (Q2E _) as [[? ?] ?], (_motor_thrust_torque _ _ _) as [? ?].
  simpl; auto.
Qed.

Lemma integrate_frame (m : MavDynamics) (delta : MsgDelta) :
  _ts_simulation (integrate P Q2R Q2E m delta) = _ts_simulation m /\
  _wind (integrate P Q2R Q2E m delta) = _wind m /\
  true_state (integrate P Q2R Q2E m delta) = true_state m.
Proof.
  unfold integrate.
  destruct (forces_moments_frame m delta) as (_ & Ht & Hw & Hs).
  destruct (_forces_moments P Q2R Q2E m delta) as [fm m']; simpl in *; auto.
Qed.

Lemma normalize_quaternion_frame (m : MavDynamics) :
  _ts_simulation (normalize_quaternion m) = _ts_simulation m /\
  _wind (normalize_quaternion m) = _wind m /\
  true_state (normalize_quaternion m) = true_state m.
Proof. unfold normalize_quaternion; simpl; auto. Qed.

Lemma update_velocity_data_frame (m : MavDynamics) (wind : Vec) :
  let m' := _update_velocity_data Q2R m wind in
  _state m' = _state m /\ _ts_simulation m' = _ts_simulation m /\
  _wind m' = _wind m /\ true_state m' = true_state m /\
  _forces m' = _forces m.
Proof.
  unfold _update_velocity_data.
  repeat match goal with |- context [if ?c then _ else _] => destruct c end;
    simpl; auto.
Qed.

Lemma update_true_state_frame (m : MavDynamics) :
  let m' := _update_true_state Q2R Q2E m in
  _state m' = _state m /\ _ts_simulation m' = _ts_simulation m /\
  _wind m' = _wind m /\ _Va m' = _Va m /\ _alpha m' = _alpha m /\
  _beta m' = _beta m.
Proof.
  unfold _update_true_state.
  destruct (Q2E _) as [[? ?] ?]; simpl; auto 10.
Qed.

Lemma update_state (m : MavDynamics) (delta : MsgDelta) (wind : Vec) :
  _state (update P Q2R Q2E m delta wind)
  = _state (normalize_quaternion (integrate P Q2R Q2E m delta)).
Proof.
  unfold update.
  destruct (update_true_state_frame
              (_update_velocity_data Q2R
                 (normalize_quaternion (integrate P Q2R Q2E m delta)) wind))
    as (-> & _).
  destruct (update_velocity_data_frame
              (normalize_quaternion (integrate P Q2R Q2E m delta)) wind)
    as (-> & _).
  reflexivity.
Qed.

Lemma integrate_state (m : MavDynamics) (delta : MsgDelta) :
  _state (integrate P Q2R Q2E m delta)
  = rk4_step (fun s => _derivatives P Q2R s
                         (fst (_forces_moments P Q2R Q2E m delta)))
             (_ts_simulation m) (_state m).
Proof.
  unfold integrate, rk4_step.
  destruct (forces_moments_frame m delta) as (Hs & Ht & _).
  destruct (_forces_moments P Q2R Q2E m delta) as [fm m'].
  cbn [fst snd] in *. unfold set_state; cbn [_state].
  rewrite Hs, Ht. reflexivity.
Qed.

End Frame.

(** ** The integrator *)

Section Integrator.

Variable P : MAV.t.
Variable Q2R : Vec -> Mat3.
Variable Q2E : Vec -> R * R * R.

(** C1.  One call to [update] advances the state by classical RK4 over
    [_derivatives]: with [fm] the forces and moments computed once from the
    object before the step, the state after [self._state += ...] is
    [rk4_step (fun s => _derivatives s fm) dt state], the same [fm] entering
    all four stage evaluations; what [update] leaves in [_state] is that
    vector with the quaternion normalised. *)
Theorem update_is_rk4 (m : MavDynamics) (delta : MsgDelta) (wind : Vec) :
  let fm := fst (_forces_moments P Q2R Q2E m delta) in
  let dt := _ts_simulation m in
  let stepped := rk4_step (fun s => _derivatives P Q2R s fm) dt (_state m) in
  _state (integrate P Q2R Q2E m delta) = stepped /\
  _state (update P Q2R Q2E m delta wind)
  = _state (normalize_quaternion (integrate P Q2R Q2E m delta)) /\
  forall i, ~ In i [6; 7; 8; 9]%nat ->
            item (_state (update P Q2R Q2E m delta wind)) i = item stepped i.
Proof.
  intros fm dt stepped.
  assert (Hint : _state (integrate P Q2R Q2E m delta) = stepped)
    by apply integrate_state.
  split; [exact Hint|]. split; [apply update_state|].
  intros i Hi. rewrite update_state, <- Hint.
  unfold normalize_quaternion, set_state; cbn [_state].
  rewrite !item_set_item_other; auto;
    intro; subst i; apply Hi; cbn [In]; auto.
Qed.

End Integrator.

(** ** The attitude quaternion *)

Section Quaternion.

Variable P : MAV.t.
Variable Q2R : Vec -> Mat3.
Variable Q2E : Vec -> R * R * R.
Variable M0 : Msg.MsgState.

Lemma init_fields (Ts : R) :
  let m := init P Q2R M0 Ts in
  _ts_simulation m = Ts /\
  _state m = [MAV.north0 P; MAV.east0 P; MAV.down0 P;
              MAV.u0 P; MAV.v0 P; MAV.w0 P;
              MAV.e0 P; MAV.e1 P; MAV.e2 P; MAV.e3 P;
              MAV.p0 P; MAV.q0 P; MAV.r0 P] /\
  _wind m = [0; 0; 0] /\ _forces m = [0; 0; 0] /\
  _Va m = MAV.u0 P /\ _alpha m = 0 /\ _beta m = 0 /\ true_state m = M0.
Proof.
  unfold init.
  match goal with
  | |- context [_update_velocity_data Q2R ?m0 ?w] =>
      destruct (update_velocity_data_frame Q2R m0 w) as (Hs & Ht & Hw & _);
      cbn zeta in Hs, Ht, Hw;
      generalize dependent (_update_velocity_data Q2R m0 w)
  end.
  intros m1 Hs Ht Hw. cbn in *. rewrite Hs, Ht, Hw. auto 10.
Qed.

Lemma length_derivatives (s fm : Vec) : length (_derivatives P Q2R s fm) = 13%nat.
Proof. reflexivity. Qed.

Lemma length_integrate (m : MavDynamics) (delta : MsgDelta) :
  length (_state m) = 13%nat ->
  length (_state (integrate P Q2R Q2E m delta)) = 13%nat.
Proof.
  intros H.
  rewrite integrate_state.
  unfold rk4_step.
  rewrite length_vadd, length_vscale, !length_vadd, !length_vscale,
    !length_derivatives, H.
  reflexivity.
Qed.

Lemma length_normalize_quaternion (m : MavDynamics) :
  length (_state (normalize_quaternion m)) = length (_state m).
Proof.
  unfold normalize_quaternion, set_state; cbn [_state].
  now rewrite !length_set_item.
Qed.

Lemma length_update (m : MavDynamics) (delta : MsgDelta) (wind : Vec) :
  length (_state m) = 13%nat ->
  length (_state (update P Q2R Q2E m delta wind)) = 13%nat.
Proof.
  intros H. rewrite update_state, length_normalize_quaternion.
  now apply length_integrate.
Qed.

Lemma reachable_length (Ts : R) (m : MavDynamics) :
  reachable P Q2R Q2E M0 Ts m -> length (_state m) = 13%nat.
Proof.
  induction 1 as [|m delta wind _ IH].
  - destruct (init_fields Ts) as (_ & -> & _). reflexivity.
  - now apply length_update.
Qed.

Lemma run_reachable (Ts : R) (calls : list (MsgDelta * Vec)) :
  reachable P Q2R Q2E M0 Ts (run P Q2R Q2E (init P Q2R M0 Ts) calls).
Proof.
  unfold run.
  assert (G : forall m, reachable P Q2R Q2E M0 Ts m ->
                        reachable P Q2R Q2E M0 Ts
                          (fold_left (fun m call =>
                             update P Q2R Q2E m (fst call) (snd call)) calls m)).
  { induction calls as [|[d w] calls IH]; intros m Hm; simpl; auto.
    apply IH. now constructor. }
  apply G. constructor.
Qed.

Lemma unit_after_division (a b c d : R) :
  sqrt (a ^ 2 + b ^ 2 + c ^ 2 + d ^ 2) <> 0 ->
  let n := sqrt (a ^ 2 + b ^ 2 + c ^ 2 + d ^ 2) in
  sqrt ((a / n) ^ 2 + ((b / n) ^ 2 + ((c / n) ^ 2 + ((d / n) ^ 2 + 0)))) = 1.
Proof.
  intros Hn n.
  assert (Hs : 0 <= a ^ 2 + b ^ 2 + c ^ 2 + d ^ 2) by nra.
  assert (Hsq : n * n = a ^ 2 + b ^ 2 + c ^ 2 + d ^ 2) by (apply sqrt_sqrt, Hs).
  replace ((a / n) ^ 2 + ((b / n) ^ 2 + ((c / n) ^ 2 + ((d / n) ^ 2 + 0))))
    with ((a ^ 2 + b ^ 2 + c ^ 2 + d ^ 2) / (n * n)) by (field; exact Hn).
  rewrite Hsq. unfold Rdiv. rewrite Rinv_r.
  - apply sqrt_1.
  - rewrite <- Hsq. now apply Rmult_integral_contrapositive.
Qed.

Lemma normalize_quaternion_unit (m : MavDynamics) :
  length (_state m) = 13%nat ->
  norm (slice 6 10 (_state m)) <> 0 ->
  norm (slice 6 10 (_state (normalize_quaternion m))) = 1.
Proof.
  intros Hlen Hn.
  rewrite slice_items_6_10 in Hn by lia.
  rewrite slice_items_6_10 by (rewrite length_normalize_quaternion; lia).
  unfold normalize_quaternion, set_state; cbn [_state].
  repeat (rewrite ?item_set_item_other by lia;
          rewrite ?item_set_item_same by (rewrite ?length_set_item; lia)).
  unfold norm, sum_sq in *; cbn [fold_right] in *.
  apply unit_after_division.
  intro H0; apply Hn. etransitivity; [|exact H0]. f_equal. ring.
Qed.


End Quaternion.

(** ** Air data *)

Section AirData.

Variable Q2R : Vec -> Mat3.
Variable Q2E : Vec -> R * R * R.

Lemma sum_sq_short (x : Vec) :
  (length x <= 3)%nat -> sum_sq x = item x 0 ^ 2 + item x 1 ^ 2 + item x 2 ^ 2.
Proof.
  intros H. unfold sum_sq, item.
  destruct x as [|a [|b0 [|c0 [|d x]]]]; simpl in *; try lia; ring.
Qed.

Lemma length_air_velocity (m : MavDynamics) (wind : Vec) :
  (length (air_velocity Q2R m wind) <= 3)%nat.
Proof.
  unfold air_velocity. rewrite length_vsub.
  pose proof (length_slice_le 3 3 (_state m)) as H. simpl in H. lia.
Qed.

Lemma norm_air_velocity (m : MavDynamics) (wind : Vec) :
  let v := air_velocity Q2R m wind in
  norm v = sqrt (item v 0 ^ 2 + item v 1 ^ 2 + item v 2 ^ 2).
Proof.
  intros v. unfold norm. f_equal. apply sum_sq_short, length_air_velocity.
Qed.

(** C5.  With [(ur, vr, wr)] the relative wind and [Va] its Euclidean norm,
    [_update_velocity_data] stores [atan (wr / ur)] as angle of attack when
    [ur] is not zero and 0 when it is, and [asin (vr / Va)] as sideslip when
    [Va] is not zero and 0 when it is; these four cases are all there is. *)
Theorem velocity_data_angles (m : MavDynamics) (wind : Vec) :
  let v := air_velocity Q2R m wind in
  let ur := item v 0 in
  let vr := item v 1 in
  let wr := item v 2 in
  let m' := _update_velocity_data Q2R m wind in
  _Va m' = sqrt (ur ^ 2 + vr ^ 2 + wr ^ 2) /\
  (ur <> 0 -> _alpha m' = atan (wr / ur)) /\
  (ur = 0 -> _alpha m' = 0) /\
  (_Va m' <> 0 -> _beta m' = asin (vr / _Va m')) /\
  (_Va m' = 0 -> _beta m' = 0).
Proof.
  intros v ur vr wr m'.
  pose proof (norm_air_velocity m wind) as Hn. cbn zeta in Hn.
  subst m'. unfold _update_velocity_data.
  fold v. fold ur vr wr. fold v in Hn. fold ur vr wr in Hn.
  destruct (Req_dec_T ur 0) as [Hu|Hu];
    match goal with
    | |- context [Req_dec_T ?x 0] => destruct (Req_dec_T x 0) as [Hv|Hv]
    end;
    cbn [_Va _alpha _beta set_Va set_alpha set_beta] in *;
    (split; [exact Hn|]);
    repeat split; intros; try reflexivity; contradiction.
Qed.

(** C8.  Body velocity (1, 1, 0), level attitude and no wind: the airspeed is
    [sqrt 2], the angle of attack 0 and the sideslip [asin (1 / sqrt 2)],
    which is 45 degrees; [_update_true_state] copies these values. *)
Theorem lateral_velocity_air_data (m : MavDynamics) :
  slice 3 6 (_state m) = [1; 1; 0] ->
  slice 6 10 (_state m) = [1; 0; 0; 0] ->
  let m' := _update_velocity_data Q2R m zero_wind in
  let t := true_state (_update_true_state Q2R Q2E m') in
  _Va m' = sqrt 2 /\ _alpha m' = 0 /\
  _beta m' = asin (1 / sqrt 2) /\ _beta m' = PI / 4 /\
  Msg.Va t = sqrt 2 /\ Msg.alpha t = 0 /\ Msg.beta t = asin (1 / sqrt 2).
Proof.
  intros Hv Hq m' t.
  assert (Hair : air_velocity Q2R m zero_wind = [1; 1; 0]).
  { unfold air_velocity. rewrite Hv.
    destruct (Q2R (slice 6 10 (_state m))) as [[[a1 a2] a3] [[b1 b2] b3] [[c1 c2] c3]].
    cbn. f_equal; [|f_equal; [|f_equal]]; ring. }
  destruct (velocity_data_angles m zero_wind) as (HVa & Ha & _ & Hb & _).
  cbn zeta in HVa, Ha, Hb. fold m' in HVa, Ha, Hb.
  rewrite Hair in HVa, Ha, Hb. cbn [item nth] in HVa, Ha, Hb.
  assert (H2 : _Va m' = sqrt 2) by (rewrite HVa; f_equal; ring).
  assert (Hs2 : 0 < sqrt 2) by (apply sqrt_lt_R0; lra).
  assert (Hal : _alpha m' = 0).
  { rewrite Ha by lra. replace (0 / 1) with 0 by field. apply atan_0. }
  assert (Hbe : _beta m' = asin (1 / sqrt 2)).
  { rewrite Hb by lra. now rewrite H2. }
  assert (Hpi : _beta m' = PI / 4).
  { rewrite Hbe. replace (1 / sqrt 2) with (/ sqrt 2) by (field; lra).
    apply asin_inv_sqrt2. }
  subst t. unfold _update_true_state.
  destruct (Q2E _) as [[? ?] ?]. cbn.
  repeat split; assumption.
Qed.

End AirData.

(** ** Propulsion *)

Section Propulsion.

Variable P : MAV.t.

Lemma motor_ignores_throttle (Va t1 t2 : R) :
  _motor_thrust_torque P Va t1 = _motor_thrust_torque P Va t2.
Proof. reflexivity. Qed.

(** C7.  For a fixed airspeed the motor model returns the same thrust and
    torque for any two throttle commands in [0, 1]: the voltage
    [V_max * throttle] is computed, the coefficients [a], [b], [c] of the
    quadratic do not contain it, and nothing after them reads the throttle. *)
Theorem motor_output_independent_of_throttle (Va t1 t2 : R) :
  0 <= t1 <= 1 -> 0 <= t2 <= 1 ->
  motor_quadratic P Va t1 = motor_quadratic P Va t2 /\
  _motor_thrust_torque P Va t1 = _motor_thrust_torque P Va t2.
Proof.
  intros _ _. split.
  - reflexivity.
  - apply motor_ignores_throttle.
Qed.

(** C9.  For a fixed airspeed the thrust is non-decreasing in the throttle
    over [0, 1]. *)
Theorem thrust_monotone_in_throttle (Va t1 t2 : R) :
  0 <= t1 -> t1 <= t2 -> t2 <= 1 ->
  fst (_motor_thrust_torque P Va t1) <= fst (_motor_thrust_torque P Va t2).
Proof.
  intros _ _ _. rewrite (motor_ignores_throttle Va t1 t2). apply Rle_refl.
Qed.

(** With [0 < a] and [c < 0] the discriminant is positive and the root the
    source selects is a positive motor speed. *)
Lemma motor_speed_positive (a b0 c0 : R) :
  0 < a -> c0 < 0 ->
  0 < b0 ^ 2 - 4 * a * c0 /\
  0 < (- b0 + sqrt (b0 ^ 2 - 4 * a * c0)) / (2 * a).
Proof.
  intros Ha Hc.
  assert (Hd : b0 ^ 2 < b0 ^ 2 - 4 * a * c0) by nra.
  assert (Hd0 : 0 < b0 ^ 2 - 4 * a * c0) by nra.
  split; [exact Hd0|].
  pose proof (sqrt_lt_R0 _ Hd0) as Hs.
  pose proof (sqrt_sqrt (b0 ^ 2 - 4 * a * c0) (Rlt_le _ _ Hd0)) as Hss.
  apply Rdiv_lt_0_compat; [|lra].
  destruct (Rle_or_lt (sqrt (b0 ^ 2 - 4 * a * c0)) b0) as [Hle|Hlt]; [|lra].
  exfalso.
  assert (sqrt (b0 ^ 2 - 4 * a * c0) * sqrt (b0 ^ 2 - 4 * a * c0) <= b0 * b0)
    by (apply Rmult_le_compat; lra).
  nra.
Qed.

End Propulsion.

(** The Aerosonde constants are in that regime at every airspeed. *)
Lemma aerosonde_motor_regular (Va t : R) :
  let '(a, _, c0) := motor_quadratic aerosonde Va t in 0 < a /\ c0 < 0.
Proof.
  unfold motor_quadratic.
  cbn [aerosonde MAV.V_max MAV.C_Q0 MAV.C_Q1 MAV.C_Q2 MAV.rho MAV.D_prop
       MAV.KQ MAV.R_motor MAV.i0].
  pose proof PI_RGT_0 as Hpi.
  assert (Hk : 0 < / (2 * PI)) by (apply Rinv_0_lt_compat; lra).
  assert (Hk2 : 0 < / ((2 * PI) ^ 2)) by (apply Rinv_0_lt_compat; nra).
  unfold Rdiv.
  set (k := / (2 * PI)) in *. set (k2 := / ((2 * PI) ^ 2)) in *.
  pose proof (pow2_ge_0 Va) as HVa.
  split; [nra|].
  assert (H1 : 0 <= 0.01664 * 1.2682 * 0.508 ^ 3 * Va ^ 2)
    by (apply Rmult_le_pos; [nra|exact HVa]).
  nra.
Qed.

(** ** The stored wind *)

Section StoredWind.

Variable P : MAV.t.
Variable Q2R : Vec -> Mat3.
Variable Q2E : Vec -> R * R * R.
Variable M0 : Msg.MsgState.

Lemma update_wind (m : MavDynamics) (delta : MsgDelta) (wind : Vec) :
  _wind (update P Q2R Q2E m delta wind) = _wind m.
Proof.
  unfold update.
  destruct (update_true_state_frame Q2R Q2E
              (_update_velocity_data Q2R
                 (normalize_quaternion (integrate P Q2R Q2E m delta)) wind))
    as (_ & _ & -> & _).
  destruct (update_velocity_data_frame Q2R
              (normalize_quaternion (integrate P Q2R Q2E m delta)) wind)
    as (_ & _ & -> & _).
  destruct (normalize_quaternion_frame (integrate P Q2R Q2E m delta))
    as (_ & -> & _).
  now destruct (integrate_frame P Q2R Q2E m delta) as (_ & -> & _).
Qed.

Lemma update_true_state_wind (m : MavDynamics) :
  Msg.wn (true_state (_update_true_state Q2R Q2E m)) = item (_wind m) 0 /\
  Msg.we (true_state (_update_true_state Q2R Q2E m)) = item (_wind m) 1.
Proof.
  unfold _update_true_state. destruct (Q2E _) as [[? ?] ?]. cbn. auto.
Qed.

Lemma update_reports_stored_wind (m : MavDynamics) (delta : MsgDelta)
      (wind : Vec) :
  Msg.wn (true_state (update P Q2R Q2E m delta wind)) = item (_wind m) 0 /\
  Msg.we (true_state (update P Q2R Q2E m delta wind)) = item (_wind m) 1.
Proof.
  pose proof (update_wind m delta wind) as Hw.
  unfold update in *.
  destruct (update_true_state_frame Q2R Q2E
              (_update_velocity_data Q2R
                 (normalize_quaternion (integrate P Q2R Q2E m delta)) wind))
    as (_ & _ & Hw' & _).
  rewrite Hw' in Hw. rewrite <- Hw. apply update_true_state_wind.
Qed.

Lemma reachable_wind (Ts : R) (m : MavDynamics) :
  reachable P Q2R Q2E M0 Ts m -> _wind m = [0; 0; 0].
Proof.
  induction 1 as [|m delta wind _ IH].
  - now destruct (init_fields P Q2R M0 Ts) as (_ & _ & -> & _).
  - now rewrite update_wind.
Qed.

(** C10.  Whatever wind each [update] call is given, the stored vector
    [_wind] keeps the value (0, 0, 0) of the constructor, and the fields
    [wn] and [we] of the true state are 0 after every call. *)
Theorem stored_wind_stays_zero (Ts : R) (calls : list (MsgDelta * Vec))
        (delta : MsgDelta) (wind : Vec) :
  let m := run P Q2R Q2E (init P Q2R M0 Ts) calls in
  let m' := run P Q2R Q2E (init P Q2R M0 Ts) (calls ++ [(delta, wind)]) in
  _wind m = [0; 0; 0] /\ _wind m' = [0; 0; 0] /\
  Msg.wn (true_state m') = 0 /\ Msg.we (true_state m') = 0.
Proof.
  intros m m'.
  assert (Hm : _wind m = [0; 0; 0])
    by (eapply reachable_wind, run_reachable).
  assert (Hm' : m' = update P Q2R Q2E m delta wind).
  { subst m m'. unfold run. now rewrite fold_left_app. }
  split; [exact Hm|]. rewrite Hm'. rewrite update_wind.
  destruct (update_reports_stored_wind m delta wind) as (-> & ->).
  rewrite Hm. auto.
Qed.

End StoredWind.

(** ** Forces and moments *)

Section Forces.

Variable Q2R : Vec -> Mat3.
Variable Q2E : Vec -> R * R * R.

(** The six entries of the vector [_forces_moments] returns. *)
Lemma forces_moments_entries (P : MAV.t) (m : MavDynamics) (delta : MsgDelta) :
  let fm := fst (_forces_moments P Q2R Q2E m delta) in
  let p := item (_state m) 10 in
  let q := item (_state m) 11 in
  let r := item (_state m) 12 in
  item fm 0 = - F_drag P m delta * cos (_alpha m) + F_lift P m delta * sin (_alpha m) /\
  item fm 1 = q_dynamic P m
              * (MAV.C_Y_0 P + MAV.C_Y_beta P * _beta m
                 + MAV.C_Y_p P * 0.5 * MAV.b P * p / _Va m
                 + MAV.C_Y_r P * 0.5 * MAV.b P * r / _Va m
                 + MAV.C_Y_delta_a P * aileron delta
                 + MAV.C_Y_delta_r P * rudder delta) /\
  item fm 2 = - F_drag P m delta * sin (_alpha m) - F_lift P m delta * cos (_alpha m) /\
  item fm 3 = q_dynamic P m * MAV.b P
              * (MAV.C_ell_0 P + MAV.C_ell_beta P * _beta m
                 + MAV.C_ell_p P * 0.5 * MAV.b P * r / _Va m
                 + MAV.C_ell_delta_a P * aileron delta
                 + MAV.C_ell_delta_r P * rudder delta) /\
  item fm 4 = q_dynamic P m * MAV.c P
              * (MAV.C_m_0 P + (MAV.C_m_alpha P * _alpha m)
                 + (MAV.C_m_q P * MAV.c P * 0.5 * q / _Va m)
                 + (MAV.C_m_delta_e P * elevator delta)) /\
  item fm 5 = q_dynamic P m * MAV.b P
              * (MAV.C_n_0 P + MAV.C_n_beta P * _beta m
                 + MAV.C_n_p P * 0.5 * MAV.b P * r / _Va m
                 + MAV.C_n_delta_a P * aileron delta
                 + MAV.C_n_delta_r P * rudder delta).
Proof.
  unfold _forces_moments.
  destruct (Q2E _) as [[? ?] ?].
  destruct (_motor_thrust_torque P (_Va m) (throttle delta)) as [? ?].
  cbn [fst item nth]. repeat split; reflexivity.
Qed.

(** With zero pitch rate the source's lift and drag keep only the elevator
    term, whereas the sums of the specification keep the coefficient. *)
Lemma lift_drag_zero_pitch_rate (P : MAV.t) (m : MavDynamics) (delta : MsgDelta) :
  item (_state m) 11 = 0 ->
  F_lift P m delta = q_dynamic P m * (MAV.C_L_delta_e P * elevator delta) /\
  F_drag P m delta = q_dynamic P m * (MAV.C_D_delta_e P * elevator delta) /\
  lift_sum P m delta
  = q_dynamic P m * (CL P m + MAV.C_L_delta_e P * elevator delta) /\
  drag_sum P m delta
  = q_dynamic P m * (CD P m + MAV.C_D_delta_e P * elevator delta).
Proof.
  intros Hq. unfold F_lift, F_drag, lift_sum, drag_sum. rewrite Hq.
  repeat split; ring.
Qed.

Lemma sigma_lt_1 (P : MAV.t) (m : MavDynamics) : sigma P m < 1.
Proof.
  unfold sigma.
  pose proof (exp_pos (- MAV.M P * (_alpha m - MAV.alpha0 P))) as HA.
  pose proof (exp_pos (MAV.M P * (_alpha m + MAV.alpha0 P))) as HB.
  set (A := exp (- MAV.M P * (_alpha m - MAV.alpha0 P))) in *.
  set (B := exp (MAV.M P * (_alpha m + MAV.alpha0 P))) in *.
  assert (HD : 0 < (1 + A) * (1 + B)) by nra.
  apply Rmult_lt_reg_r with ((1 + A) * (1 + B)); [exact HD|].
  unfold Rdiv. rewrite Rmult_assoc, Rinv_l by lra. nra.
Qed.

(** C4.  The vector returned by [_forces_moments] does not change when the
    gravitational acceleration of the constant table does: the term [f_g],
    which carries the weight, is computed and never read, so the net force
    [fx], [fy], [fz] handed to [_derivatives] holds no gravity. *)
Theorem gravity_absent_from_forces (P : MAV.t) (m : MavDynamics)
        (delta : MsgDelta) (g : R) :
  fst (_forces_moments (with_gravity P g) Q2R Q2E m delta)
  = fst (_forces_moments P Q2R Q2E m delta) /\
  f_g (with_gravity P g) Q2R m
  = broadcast_mul (Q2R (slice 6 10 (_state m))) [0; 0; MAV.mass P * g].
Proof.
  split; [|reflexivity].
  unfold _forces_moments.
  destruct (Q2E _) as [[? ?] ?].
  reflexivity.
Qed.

(** C6.  The vector returned by [_forces_moments] does not change when the
    propeller and motor constants or the throttle do: thrust and torque are
    computed and never read, so neither the force nor the moment entries
    hold the output of the propulsion model. *)
Theorem propulsion_absent_from_forces (P Q : MAV.t) (m : MavDynamics)
        (delta : MsgDelta) (t : R) :
  fst (_forces_moments (with_propulsion P Q) Q2R Q2E m (with_throttle delta t))
  = fst (_forces_moments P Q2R Q2E m delta).
Proof.
  unfold _forces_moments.
  destruct (Q2E _) as [[? ?] ?].
  reflexivity.
Qed.

End Forces.

(** ** The sample aircraft in level flight *)

Lemma mav0_fields :
  _ts_simulation mav0 = 0.01 /\
  _state mav0 = [0; 0; -100; 25; 0; 0; 1; 0; 0; 0; 0; 0; 0] /\
  _Va mav0 = 25 /\ _alpha mav0 = 0 /\ _beta mav0 = 0.
Proof.
  destruct (init_fields aerosonde quaternion_rotation msg_zero 0.01)
    as (Ht & Hs & _ & _ & HV & Ha & Hb & _).
  fold mav0 in Ht, Hs, HV, Ha, Hb. cbn in Hs, HV. auto.
Qed.

Lemma np_sign_0 : np_sign 0 = 0.
Proof.
  unfold np_sign. destruct (Rlt_dec 0 0) as [H|H]; [lra|reflexivity].
Qed.

Lemma mav0_q_dynamic : 0 < q_dynamic aerosonde mav0.
Proof.
  destruct mav0_fields as (_ & _ & HV & _).
  unfold q_dynamic. rewrite HV. cbn [MAV.rho MAV.S_wing aerosonde]. lra.
Qed.

Lemma mav0_CL : 0 < CL aerosonde mav0.
Proof.
  destruct mav0_fields as (_ & _ & _ & Ha & _).
  pose proof (sigma_lt_1 aerosonde mav0) as Hs.
  unfold CL. rewrite Ha, np_sign_0. cbn [MAV.C_L_0 MAV.C_L_alpha aerosonde].
  nra.
Qed.

Lemma mav0_CD : 0 < CD aerosonde mav0.
Proof.
  destruct mav0_fields as (_ & _ & _ & Ha & _).
  unfold CD. rewrite Ha.
  cbn [MAV.C_D_p MAV.C_L_0 MAV.C_L_alpha MAV.e MAV.AR aerosonde].
  pose proof PI_RGT_0 as Hpi.
  assert (H : 0 <= (0.23 + 5.61 * 0) ^ 2 / (PI * 0.9 * (2.8956 ^ 2 / 0.55))).
  { apply Rmult_le_pos; [nra|].
    apply Rlt_le, Rinv_0_lt_compat.
    apply Rmult_lt_0_compat; [nra|lra]. }
  lra.
Qed.

(** C3.  In level flight with zero pitch rate and nonzero airspeed the lift
    and drag computed by the source are strictly smaller than the sums the
    specification gives: the source multiplies the coefficient by the
    pitch-rate term, which is 0 here, where the specification adds them. *)
Theorem lift_drag_product_for_sum :
  _Va mav0 <> 0 /\
  F_lift aerosonde mav0 delta_trim
  = q_dynamic aerosonde mav0 * (MAV.C_L_delta_e aerosonde * elevator delta_trim) /\
  F_drag aerosonde mav0 delta_trim
  = q_dynamic aerosonde mav0 * (MAV.C_D_delta_e aerosonde * elevator delta_trim) /\
  F_lift aerosonde mav0 delta_trim < lift_sum aerosonde mav0 delta_trim /\
  F_drag aerosonde mav0 delta_trim < drag_sum aerosonde mav0 delta_trim.
Proof.
  destruct mav0_fields as (_ & Hs & HV & _).
  assert (Hq : item (_state mav0) 11 = 0) by (rewrite Hs; reflexivity).
  destruct (lift_drag_zero_pitch_rate aerosonde mav0 delta_trim Hq)
    as (HL & HD & HLs & HDs).
  pose proof mav0_q_dynamic. pose proof mav0_CL. pose proof mav0_CD.
  split; [rewrite HV; lra|].
  split; [exact HL|]. split; [exact HD|].
  rewrite HL, HD, HLs, HDs. split; nra.
Qed.

(** ** Steady attitude: zero body rates and zero moments *)

Section SteadyAttitude.

Variable P : MAV.t.
Variable Q2R : Vec -> Mat3.

Lemma derivatives_tail_zero (s fm : Vec) :
  item s 10 = 0 -> item s 11 = 0 -> item s 12 = 0 ->
  item fm 3 = 0 -> item fm 4 = 0 -> item fm 5 = 0 ->
  forall i, (6 <= i)%nat -> item (_derivatives P Q2R s fm) i = 0.
Proof.
  intros Hp Hq Hr Hl Hm Hn i Hi.
  unfold _derivatives. rewrite Hp, Hq, Hr, Hl, Hm, Hn.
  do 6 (destruct i as [|i]; [lia|]).
  do 7 (destruct i as [|i];
        [cbn [item nth mat_vec mat_scale map vscale dot]; ring|]).
  unfold item; cbn [nth]. now destruct i.
Qed.

Lemma stage_tail (s k : Vec) (c : R) :
  length s = 13%nat -> length k = 13%nat ->
  (forall i, (6 <= i)%nat -> item k i = 0) ->
  length (vadd s (vscale c k)) = 13%nat /\
  forall i, (6 <= i)%nat -> item (vadd s (vscale c k)) i = item s i.
Proof.
  intros Hs Hk H0. split.
  - rewrite length_vadd, length_vscale, Hs, Hk. reflexivity.
  - intros i Hi.
    rewrite item_vadd by (rewrite length_vscale; congruence).
    rewrite item_vscale, H0 by exact Hi. ring.
Qed.

Lemma rk4_steady_attitude (s fm : Vec) (dt : R) :
  length s = 13%nat ->
  item s 10 = 0 -> item s 11 = 0 -> item s 12 = 0 ->
  item fm 3 = 0 -> item fm 4 = 0 -> item fm 5 = 0 ->
  forall i, (6 <= i)%nat ->
            item (rk4_step (fun x => _derivatives P Q2R x fm) dt s) i = item s i.
Proof.
  intros Hlen Hp Hq Hr Hl Hm Hn.
  assert (Hk : forall x, length x = 13%nat ->
                 (forall i, (6 <= i)%nat -> item x i = item s i) ->
                 forall i, (6 <= i)%nat -> item (_derivatives P Q2R x fm) i = 0).
  { intros x _ Hx. apply derivatives_tail_zero; auto;
      rewrite Hx by lia; assumption. }
  unfold rk4_step.
  set (k1 := _derivatives P Q2R s fm).
  assert (H1 : forall i, (6 <= i)%nat -> item k1 i = 0) by (apply Hk; auto).
  destruct (stage_tail s k1 (dt / 2) Hlen (length_derivatives P Q2R s fm) H1)
    as (L2 & T2).
  set (k2 := _derivatives P Q2R (vadd s (vscale (dt / 2) k1)) fm).
  assert (H2 : forall i, (6 <= i)%nat -> item k2 i = 0) by (apply Hk; auto).
  destruct (stage_tail s k2 (dt / 2) Hlen (length_derivatives P Q2R _ fm) H2)
    as (L3 & T3).
  set (k3 := _derivatives P Q2R (vadd s (vscale (dt / 2) k2)) fm).
  assert (H3 : forall i, (6 <= i)%nat -> item k3 i = 0) by (apply Hk; auto).
  destruct (stage_tail s k3 dt Hlen (length_derivatives P Q2R _ fm) H3)
    as (L4 & T4).
  set (k4 := _derivatives P Q2R (vadd s (vscale dt k3)) fm).
  assert (H4 : forall i, (6 <= i)%nat -> item k4 i = 0) by (apply Hk; auto).
  assert (Lk : forall x, length (_derivatives P Q2R x fm) = 13%nat)
    by (intro; apply length_derivatives).
  assert (Lsum : length (vadd (vadd (vadd k1 (vscale 2 k2)) (vscale 2 k3)) k4)
                 = 13%nat).
  { rewrite !length_vadd, !length_vscale. unfold k1, k2, k3, k4.
    rewrite !Lk. reflexivity. }
  apply stage_tail; [exact Hlen|exact Lsum|].
  intros i Hi.
  rewrite !item_vadd, !item_vscale, H1, H2, H3, H4 by
    (auto; rewrite ?length_vadd, ?length_vscale; unfold k1, k2, k3, k4;
     rewrite ?Lk; reflexivity).
  ring.
Qed.

End SteadyAttitude.

(** ** Instances at the sample aircraft *)

Lemma mav0_trim_moments :
  let fm := fst (_forces_moments aerosonde quaternion_rotation quaternion_euler
                                 mav0 delta_trim) in
  item fm 3 = 0 /\ item fm 4 = 0 /\ item fm 5 = 0.
Proof.
  destruct (forces_moments_entries quaternion_rotation quaternion_euler
              aerosonde mav0 delta_trim) as (_ & _ & _ & H3 & H4 & H5).
  cbn zeta in *.
  destruct mav0_fields as (_ & Hs & HV & Ha & Hb).
  rewrite H3, H4, H5, Hs, HV, Ha, Hb.
  cbn [item nth aileron elevator rudder delta_trim aerosonde
       MAV.b MAV.c MAV.C_ell_0 MAV.C_ell_beta MAV.C_ell_p MAV.C_ell_delta_a
       MAV.C_ell_delta_r MAV.C_m_0 MAV.C_m_alpha MAV.C_m_q MAV.C_m_delta_e
       MAV.C_n_0 MAV.C_n_beta MAV.C_n_p MAV.C_n_delta_a MAV.C_n_delta_r].
  repeat split;
    match goal with
    | |- _ * ?x = 0 => replace x with 0 by lra; apply Rmult_0_r
    end.
Qed.


Lemma norm_unit_quaternion : norm [1; 0; 0; 0] = 1.
Proof.
  unfold norm, sum_sq; cbn [fold_right].
  replace (1 ^ 2 + (0 ^ 2 + (0 ^ 2 + (0 ^ 2 + 0)))) with 1 by ring.
  apply sqrt_1.
Qed.


Lemma motor_output_independent_of_throttle_witness :
  0 <= 0 <= 1 /\ 0 <= 1 <= 1 /\
  _motor_thrust_torque aerosonde 25 0 = _motor_thrust_torque aerosonde 25 1.
Proof.
  assert (H1 : 0 <= 0 <= 1) by lra.
  assert (H2 : 0 <= 1 <= 1) by lra.
  split; [exact H1|]. split; [exact H2|].
  apply (motor_output_independent_of_throttle aerosonde 25 0 1 H1 H2).
Defined.

Lemma thrust_monotone_in_throttle_witness :
  0 <= 0.25 /\ 0.25 <= 0.75 /\ 0.75 <= 1 /\
  fst (_motor_thrust_torque aerosonde 25 0.25)
  <= fst (_motor_thrust_torque aerosonde 25 0.75).
Proof.
  assert (H1 : 0 <= 0.25) by lra.
  assert (H2 : 0.25 <= 0.75) by lra.
  assert (H3 : 0.75 <= 1) by lra.
  repeat (split; [assumption|]).
  apply (thrust_monotone_in_throttle aerosonde 25 0.25 0.75 H1 H2 H3).
Defined.

(** The third scenario of the driver script: velocity (1, 1, 0) written into
    the state of the sample aircraft. *)
Lemma lateral_velocity_air_data_witness :
  let m := external_set_state mav0 [0; 0; -100; 1; 1; 0; 1; 0; 0; 0; 0; 0; 0] in
  let m' := _update_velocity_data quaternion_rotation m zero_wind in
  slice 3 6 (_state m) = [1; 1; 0] /\
  slice 6 10 (_state m) = [1; 0; 0; 0] /\
  _Va m' = sqrt 2 /\ _alpha m' = 0 /\ _beta m' = PI / 4.
Proof.
  intros m m'.
  assert (H1 : slice 3 6 (_state m) = [1; 1; 0]) by reflexivity.
  assert (H2 : slice 6 10 (_state m) = [1; 0; 0; 0]) by reflexivity.
  split; [exact H1|]. split; [exact H2|].
  destruct (lateral_velocity_air_data quaternion_rotation quaternion_euler
              m H1 H2) as (HV & Ha & _ & Hb & _).
  auto.
Defined.

Lemma velocity_data_angles_witness :
  let m := external_set_state mav0 [0; 0; -100; 0; 4; 0; 1; 0; 0; 0; 0; 0; 0] in
  let m' := _update_velocity_data quaternion_rotation m zero_wind in
  item (air_velocity quaternion_rotation m zero_wind) 0 = 0 /\ _alpha m' = 0.
Proof.
  intros m m'.
  assert (H0 : item (air_velocity quaternion_rotation m zero_wind) 0 = 0).
  { cbn. ring. }
  split; [exact H0|].
  destruct (velocity_data_angles quaternion_rotation m zero_wind)
    as (_ & _ & Ha & _).
  exact (Ha H0).
Defined.

(** * Further properties of the methods *)

(** ** Quaternion kinematics and normalisation *)

Section Attitude.

Variable P : MAV.t.
Variable Q2R : Vec -> Mat3.
Variable Q2E : Vec -> R * R * R.

(** X1.  The quaternion rate computed by [_derivatives] is orthogonal to the
    quaternion of the state it is computed at, whatever the body rates: the
    4x4 array [skew_sym] is antisymmetric, so the kinematics do not change
    the quaternion norm to first order. *)
Theorem quaternion_rate_orthogonal (s fm : Vec) :
  let k := _derivatives P Q2R s fm in
  item s 6 * item k 6 + item s 7 * item k 7
  + item s 8 * item k 8 + item s 9 * item k 9 = 0.
Proof.
  unfold _derivatives.
  cbn [item nth mat_vec mat_scale map vscale dot]. ring.
Qed.

Lemma set_item_same_value (x : Vec) (i : nat) :
  (i < length x)%nat -> set_item x i (item x i) = x.
Proof.
  unfold item; revert i; induction x as [|a x IH]; intros [|i] H;
    simpl in *; try lia; auto.
  f_equal. apply IH. lia.
Qed.

Lemma normalize_unit_state (m : MavDynamics) :
  length (_state m) = 13%nat ->
  norm (slice 6 10 (_state m)) = 1 ->
  _state (normalize_quaternion m) = _state m.
Proof.
  intros Hlen Hn.
  rewrite slice_items_6_10 in Hn by lia.
  unfold norm, sum_sq in Hn; cbn [fold_right] in Hn.
  unfold normalize_quaternion, set_state; cbn [_state].
  replace (item (_state m) 6 ^ 2 + item (_state m) 7 ^ 2
           + item (_state m) 8 ^ 2 + item (_state m) 9 ^ 2)
    with (item (_state m) 6 ^ 2 + (item (_state m) 7 ^ 2
           + (item (_state m) 8 ^ 2 + (item (_state m) 9 ^ 2 + 0)))) by ring.
  rewrite Hn.
  repeat (rewrite ?item_set_item_other by lia).
  replace (item (_state m) 6 / 1) with (item (_state m) 6) by field.
  rewrite (set_item_same_value (_state m) 6) by lia.
  replace (item (_state m) 7 / 1) with (item (_state m) 7) by field.
  rewrite (set_item_same_value (_state m) 7) by lia.
  replace (item (_state m) 8 / 1) with (item (_state m) 8) by field.
  rewrite (set_item_same_value (_state m) 8) by lia.
  replace (item (_state m) 9 / 1) with (item (_state m) 9) by field.
  rewrite (set_item_same_value (_state m) 9) by lia.
  reflexivity.
Qed.

(** X2.  Normalising is idempotent: on a 13-entry state whose quaternion is
    not the zero vector, normalising a second time changes nothing, and a
    state whose quaternion already has norm 1 is left as it is. *)
Theorem normalize_quaternion_idempotent (m : MavDynamics) :
  length (_state m) = 13%nat ->
  norm (slice 6 10 (_state m)) <> 0 ->
  _state (normalize_quaternion (normalize_quaternion m))
  = _state (normalize_quaternion m) /\
  (norm (slice 6 10 (_state m)) = 1 ->
   _state (normalize_quaternion m) = _state m).
Proof.
  intros Hlen Hn. split.
  - apply normalize_unit_state.
    + now rewrite length_normalize_quaternion.
    + now apply normalize_quaternion_unit.
  - now apply normalize_unit_state.
Qed.

End Attitude.

Lemma mav0_unit_quaternion :
  length (_state mav0) = 13%nat /\ norm (slice 6 10 (_state mav0)) = 1.
Proof.
  destruct mav0_fields as (_ & Hs & _). rewrite Hs.
  split; [reflexivity|]. apply norm_unit_quaternion.
Qed.

Lemma normalize_quaternion_idempotent_witness :
  length (_state mav0) = 13%nat /\
  norm (slice 6 10 (_state mav0)) <> 0 /\
  _state (normalize_quaternion (normalize_quaternion mav0))
  = _state (normalize_quaternion mav0).
Proof.
  destruct mav0_unit_quaternion as (Hlen & Hn).
  assert (Hn0 : norm (slice 6 10 (_state mav0)) <> 0) by (rewrite Hn; lra).
  split; [exact Hlen|]. split; [exact Hn0|].
  apply (normalize_quaternion_idempotent mav0 Hlen Hn0).
Defined.

(** ** Ranges and symmetries of the air data *)

Section AirDataRanges.

Variable Q2R : Vec -> Mat3.

Lemma update_velocity_data_values (m : MavDynamics) (wind : Vec) :
  let v := air_velocity Q2R m wind in
  let m' := _update_velocity_data Q2R m wind in
  _Va m' = norm v /\
  _alpha m' = (if Req_dec_T (item v 0) 0 then 0
               else atan (item v 2 / item v 0)) /\
  _beta m' = (if Req_dec_T (norm v) 0 then 0
              else asin (item v 1 / norm v)).
Proof.
  intros v m'. subst m'. unfold _update_velocity_data. fold v.
  destruct (Req_dec_T (item v 0) 0) as [Hu|Hu];
    cbn [_Va _alpha _beta set_Va set_alpha set_beta];
    destruct (Req_dec_T (norm v) 0) as [Hv|Hv];
    cbn [_Va _alpha _beta set_Va set_alpha set_beta]; auto.
Qed.

Lemma lateral_ratio_bounded (u v w : R) :
  sqrt (u ^ 2 + v ^ 2 + w ^ 2) <> 0 ->
  -1 <= v / sqrt (u ^ 2 + v ^ 2 + w ^ 2) <= 1.
Proof.
  intros Hn.
  assert (H0 : 0 <= u ^ 2 + v ^ 2 + w ^ 2) by nra.
  pose proof (sqrt_pos (u ^ 2 + v ^ 2 + w ^ 2)) as Hp.
  pose proof (sqrt_sqrt _ H0) as Hs.
  set (N := sqrt (u ^ 2 + v ^ 2 + w ^ 2)) in *.
  assert (HN : 0 < N) by lra.
  assert (Hv : - N <= v <= N) by (split; nra).
  split.
  - apply Rmult_le_reg_r with N; [exact HN|].
    unfold Rdiv. rewrite Rmult_assoc, Rinv_l by lra. lra.
  - apply Rmult_le_reg_r with N; [exact HN|].
    unfold Rdiv. rewrite Rmult_assoc, Rinv_l by lra. lra.
Qed.

(** X3.  Whatever the state and the wind, the stored airspeed is not
    negative, the angle of attack lies strictly between -90 and 90 degrees,
    the sideslip lies between -90 and 90 degrees, and when the airspeed is
    not zero the argument handed to [arcsin] lies in [-1, 1]. *)
Theorem air_data_ranges (m : MavDynamics) (wind : Vec) :
  let v := air_velocity Q2R m wind in
  let m' := _update_velocity_data Q2R m wind in
  0 <= _Va m' /\
  - PI / 2 < _alpha m' < PI / 2 /\
  - (PI / 2) <= _beta m' <= PI / 2 /\
  (_Va m' <> 0 -> -1 <= item v 1 / _Va m' <= 1).
Proof.
  intros v m'.
  destruct (update_velocity_data_values m wind) as (HV & Ha & Hb).
  cbn zeta in HV, Ha, Hb. fold v in HV, Ha, Hb. fold m' in HV, Ha, Hb.
  pose proof PI_RGT_0 as Hpi.
  split; [rewrite HV; apply sqrt_pos|].
  split.
  { rewrite Ha. destruct (Req_dec_T (item v 0) 0); [lra|apply atan_bound]. }
  split.
  { rewrite Hb. destruct (Req_dec_T (norm v) 0); [lra|apply asin_bound]. }
  rewrite HV. unfold v. rewrite norm_air_velocity. apply lateral_ratio_bounded.
Qed.

(** X4.  Reversing the relative wind keeps the airspeed and the angle of
    attack and negates the sideslip: [arctan], not [arctan2], is applied to
    the quotient [wr / ur], so flow from behind gives the same angle of
    attack as flow from ahead. *)
Theorem reversed_relative_wind (m1 m2 : MavDynamics) (wind1 wind2 : Vec) :
  let v1 := air_velocity Q2R m1 wind1 in
  let v2 := air_velocity Q2R m2 wind2 in
  let m1' := _update_velocity_data Q2R m1 wind1 in
  let m2' := _update_velocity_data Q2R m2 wind2 in
  item v2 0 = - item v1 0 -> item v2 1 = - item v1 1 ->
  item v2 2 = - item v1 2 ->
  _Va m2' = _Va m1' /\ _alpha m2' = _alpha m1' /\ _beta m2' = - _beta m1'.
Proof.
  intros v1 v2 m1' m2' H0 H1 H2.
  destruct (update_velocity_data_values m1 wind1) as (HV1 & Ha1 & Hb1).
  destruct (update_velocity_data_values m2 wind2) as (HV2 & Ha2 & Hb2).
  cbn zeta in *. fold v1 in HV1, Ha1, Hb1. fold v2 in HV2, Ha2, Hb2.
  fold m1' in HV1, Ha1, Hb1. fold m2' in HV2, Ha2, Hb2.
  assert (HN : norm v2 = norm v1).
  { unfold v1, v2. rewrite !norm_air_velocity. fold v1 v2.
    rewrite H0, H1, H2. f_equal. ring. }
  rewrite HN in *.
  split; [congruence|]. split.
  - rewrite Ha1, Ha2, H0, H2.
    destruct (Req_dec_T (item v1 0) 0) as [Hz|Hz];
      destruct (Req_dec_T (- item v1 0) 0) as [Hz'|Hz']; try lra.
    f_equal. field. exact Hz.
  - rewrite Hb1, Hb2, H1.
    destruct (Req_dec_T (norm v1) 0) as [Hz|Hz]; [lra|].
    rewrite <- asin_opp. f_equal. field. exact Hz.
Qed.

End AirDataRanges.

Lemma mav_axial_air :
  air_velocity quaternion_rotation mav_axial zero_wind = [1 - (0 + 0); 0 - (0 + 0); 0 - (0 + 0)].
Proof.
  unfold air_velocity. cbn. repeat f_equal; ring.
Qed.

Lemma mav_still_air :
  air_velocity quaternion_rotation mav_still north_wind = [0 - (1 + 0); 0 - (0 + 0); 0 - (0 + 0)].
Proof.
  unfold air_velocity. cbn. repeat f_equal; ring.
Qed.

Lemma air_data_ranges_witness :
  let m' := _update_velocity_data quaternion_rotation mav_axial zero_wind in
  _Va m' <> 0 /\
  -1 <= item (air_velocity quaternion_rotation mav_axial zero_wind) 1 / _Va m' <= 1.
Proof.
  intros m'.
  assert (HV : _Va m' <> 0).
  { destruct (update_velocity_data_values quaternion_rotation mav_axial zero_wind)
      as (HV & _).
    cbn zeta in HV. fold m' in HV. rewrite HV, mav_axial_air.
    unfold norm, sum_sq; cbn [fold_right].
    replace ((1 - (0 + 0)) ^ 2 + ((0 - (0 + 0)) ^ 2 + ((0 - (0 + 0)) ^ 2 + 0)))
      with 1 by ring.
    rewrite sqrt_1. lra. }
  split; [exact HV|].
  destruct (air_data_ranges quaternion_rotation mav_axial zero_wind)
    as (_ & _ & _ & H).
  exact (H HV).
Defined.

Lemma reversed_relative_wind_witness :
  let m1' := _update_velocity_data quaternion_rotation mav_axial zero_wind in
  let m2' := _update_velocity_data quaternion_rotation mav_still north_wind in
  _Va m2' = _Va m1' /\ _alpha m2' = _alpha m1' /\ _beta m2' = - _beta m1'.
Proof.
  apply (reversed_relative_wind quaternion_rotation mav_axial mav_still
           zero_wind north_wind);
    rewrite mav_axial_air, mav_still_air; cbn [item nth]; lra.
Defined.

(** ** How [update] composes its steps *)

Section UpdateSteps.

Variable P : MAV.t.
Variable Q2R : Vec -> Mat3.
Variable Q2E : Vec -> R * R * R.
Variable M0 : Msg.MsgState.

Lemma integrate_forces (m : MavDynamics) (delta : MsgDelta) :
  _forces (integrate P Q2R Q2E m delta)
  = _forces (snd (_forces_moments P Q2R Q2E m delta)).
Proof.
  unfold integrate.
  destruct (_forces_moments P Q2R Q2E m delta) as [fm m']. reflexivity.
Qed.

Lemma update_forces (m : MavDynamics) (delta : MsgDelta) (wind : Vec) :
  _forces (update P Q2R Q2E m delta wind)
  = _forces (snd (_forces_moments P Q2R Q2E m delta)).
Proof.
  unfold update, _update_true_state.
  destruct (Q2E _) as [[? ?] ?]. cbn [_forces set_true_state].
  destruct (update_velocity_data_frame Q2R
              (normalize_quaternion (integrate P Q2R Q2E m delta)) wind)
    as (_ & _ & _ & _ & ->).
  unfold normalize_quaternion, set_state; cbn [_forces].
  apply integrate_forces.
Qed.

Lemma update_air_data (m : MavDynamics) (delta : MsgDelta) (wind : Vec) :
  let m1 := normalize_quaternion (integrate P Q2R Q2E m delta) in
  let m' := update P Q2R Q2E m delta wind in
  _Va m' = _Va (_update_velocity_data Q2R m1 wind) /\
  _alpha m' = _alpha (_update_velocity_data Q2R m1 wind) /\
  _beta m' = _beta (_update_velocity_data Q2R m1 wind).
Proof.
  intros m1 m'. subst m'. unfold update. fold m1.
  destruct (update_true_state_frame Q2R Q2E (_update_velocity_data Q2R m1 wind))
    as (_ & _ & _ & -> & -> & ->).
  auto.
Qed.

(** X5.  The wind handed to a call of [update] does not influence the state
    or the cached forces that call produces: two calls that differ only in
    the wind leave the same [_state] and [_forces]. *)
Theorem step_state_ignores_wind (m : MavDynamics) (delta : MsgDelta)
        (wind1 wind2 : Vec) :
  _state (update P Q2R Q2E m delta wind1) = _state (update P Q2R Q2E m delta wind2) /\
  _forces (update P Q2R Q2E m delta wind1) = _forces (update P Q2R Q2E m delta wind2).
Proof.
  split.
  - now rewrite !update_state.
  - now rewrite !update_forces.
Qed.

Lemma forces_moments_cache (m : MavDynamics) (delta : MsgDelta) :
  length (_forces m) = 3%nat ->
  _forces (snd (_forces_moments P Q2R Q2E m delta))
  = firstn 3 (fst (_forces_moments P Q2R Q2E m delta)).
Proof.
  intros H. unfold _forces_moments.
  destruct (Q2E _) as [[? ?] ?].
  destruct (_motor_thrust_torque P (_Va m) (throttle delta)) as [? ?].
  cbn [fst snd firstn _forces set_forces].
  destruct (_forces m) as [|a [|b0 [|c0 [|d l]]]]; simpl in H; try lia.
  reflexivity.
Qed.

Lemma reachable_forces_length (Ts : R) (m : MavDynamics) :
  reachable P Q2R Q2E M0 Ts m -> length (_forces m) = 3%nat.
Proof.
  induction 1 as [|m delta wind _ IH].
  - now destruct (init_fields P Q2R M0 Ts) as (_ & _ & _ & -> & _).
  - rewrite update_forces, forces_moments_cache by exact IH.
    unfold _forces_moments.
    destruct (Q2E _) as [[? ?] ?].
    destruct (_motor_thrust_torque P (_Va m) (throttle delta)) as [? ?].
    reflexivity.
Qed.

(** X6.  At every object reachable from the constructor, [update] leaves in
    [_forces] exactly the three force entries of the vector that
    [_forces_moments] returned for that step. *)
Theorem update_caches_forces (Ts : R) (m : MavDynamics) (delta : MsgDelta)
        (wind : Vec) :
  reachable P Q2R Q2E M0 Ts m ->
  _forces (update P Q2R Q2E m delta wind)
  = firstn 3 (fst (_forces_moments P Q2R Q2E m delta)).
Proof.
  intros Hr. rewrite update_forces.
  apply forces_moments_cache. eapply reachable_forces_length; eauto.
Qed.

(** X7.  After [update] the true state mirrors the object: north, east and
    the body rates are the state entries, the altitude is minus the down
    position, and airspeed, angle of attack and sideslip are the stored air
    data, which are those of the new state and of the wind of this call. *)
Theorem true_state_mirrors_object (m : MavDynamics) (delta : MsgDelta)
        (wind : Vec) :
  let m' := update P Q2R Q2E m delta wind in
  let t := true_state m' in
  let m1 := normalize_quaternion (integrate P Q2R Q2E m delta) in
  Msg.north t = item (_state m') 0 /\ Msg.east t = item (_state m') 1 /\
  Msg.altitude t = - item (_state m') 2 /\
  Msg.p t = item (_state m') 10 /\ Msg.q t = item (_state m') 11 /\
  Msg.r t = item (_state m') 12 /\
  Msg.Va t = _Va m' /\ Msg.alpha t = _alpha m' /\ Msg.beta t = _beta m' /\
  _Va m' = norm (air_velocity Q2R m1 wind) /\
  Msg.Vg t = norm (pdot Q2R m').
Proof.
  intros m' t m1.
  destruct (update_air_data m delta wind) as (HV & _).
  cbn zeta in HV. fold m' m1 in HV.
  assert (HVa : _Va m' = norm (air_velocity Q2R m1 wind)).
  { rewrite HV.
    now destruct (update_velocity_data_values Q2R m1 wind) as (-> & _). }
  subst t. revert HVa. subst m'. unfold update. fold m1.
  set (m2 := _update_velocity_data Q2R m1 wind).
  destruct (update_true_state_frame Q2R Q2E m2) as (Hs & _ & _ & HV2 & Ha2 & Hb2).
  cbn zeta in *. unfold pdot. rewrite Hs, HV2, Ha2, Hb2.
  unfold _update_true_state. destruct (Q2E _) as [[? ?] ?].
  cbn [true_state set_true_state Msg.north Msg.east Msg.altitude Msg.p Msg.q
       Msg.r Msg.Va Msg.alpha Msg.beta Msg.Vg].
  intros HVa. repeat split; auto.
Qed.

End UpdateSteps.

Lemma update_caches_forces_witness :
  reachable aerosonde quaternion_rotation quaternion_euler msg_zero 0.01 mav0 /\
  _forces (update aerosonde quaternion_rotation quaternion_euler mav0
                  delta_trim zero_wind)
  = firstn 3 (fst (_forces_moments aerosonde quaternion_rotation
                                   quaternion_euler mav0 delta_trim)).
Proof.
  assert (Hr : reachable aerosonde quaternion_rotation quaternion_euler
                         msg_zero 0.01 mav0) by apply reach_init.
  split; [exact Hr|].
  apply (update_caches_forces aerosonde quaternion_rotation quaternion_euler
           msg_zero 0.01 mav0 delta_trim zero_wind Hr).
Defined.

(** ** The derived views *)

Section Views.

Variable Q2R : Vec -> Mat3.
Variable Q2E : Vec -> R * R * R.

(** X8.  Deriving a view twice is deriving it once: [_update_velocity_data]
    with the same wind and [_update_true_state] are idempotent on the whole
    object. *)
Theorem derived_views_idempotent (m : MavDynamics) (wind : Vec) :
  _update_velocity_data Q2R (_update_velocity_data Q2R m wind) wind
  = _update_velocity_data Q2R m wind /\
  _update_true_state Q2R Q2E (_update_true_state Q2R Q2E m)
  = _update_true_state Q2R Q2E m.
Proof.
  destruct m as [ts s w f V a b0 t].
  assert (Hair : forall V' a' b' t',
            air_velocity Q2R (mkMav ts s w f V' a' b' t') wind
            = air_velocity Q2R (mkMav ts s w f V a b0 t) wind) by reflexivity.
  split.
  - unfold _update_velocity_data.
    set (v := air_velocity Q2R (mkMav ts s w f V a b0 t) wind).
    destruct (Req_dec_T (item v 0) 0) as [Hu|Hu];
      cbn [_Va set_Va set_alpha set_beta];
      destruct (Req_dec_T (norm v) 0) as [Hv|Hv];
      unfold set_Va, set_alpha, set_beta;
      cbn [_ts_simulation _state _wind _forces _Va _alpha _beta true_state];
      rewrite !Hair; fold v;
      destruct (Req_dec_T (item v 0) 0); try contradiction;
      cbn [_Va];
      destruct (Req_dec_T (norm v) 0); try contradiction; reflexivity.
  - unfold _update_true_state, set_true_state.
    cbn [_ts_simulation _state _wind _forces _Va _alpha _beta true_state].
    destruct (Q2E (slice 6 10 s)) as [[ph th] ps] eqn:E.
    cbn [_ts_simulation _state _wind _forces _Va _alpha _beta true_state].
    rewrite E. reflexivity.
Qed.





End Views.


(** ** The aerodynamic coefficients and the returned vector *)

Section Aerodynamics.

Variable P : MAV.t.
Variable Q2R : Vec -> Mat3.
Variable Q2E : Vec -> R * R * R.

Lemma sigma_pos (m : MavDynamics) : 0 < sigma P m.
Proof.
  unfold sigma.
  pose proof (exp_pos (- MAV.M P * (_alpha m - MAV.alpha0 P))) as HA.
  pose proof (exp_pos (MAV.M P * (_alpha m + MAV.alpha0 P))) as HB.
  apply Rdiv_lt_0_compat; nra.
Qed.

(** X10.  The blending weight [sigma] lies strictly between 0 and 1 and is
    the same at [alpha] and [- alpha]; the lift coefficient is the weighted
    mean of the linear model and the flat-plate model and so lies between
    the two. *)
Theorem lift_coefficient_between_models (m : MavDynamics) :
  0 < sigma P m < 1 /\
  (forall m', _alpha m' = - _alpha m -> sigma P m' = sigma P m) /\
  CL P m = (1 - sigma P m) * CL_linear P m + sigma P m * CL_flat_plate m /\
  Rmin (CL_linear P m) (CL_flat_plate m) <= CL P m
  <= Rmax (CL_linear P m) (CL_flat_plate m).
Proof.
  pose proof (sigma_pos m) as H0. pose proof (sigma_lt_1 P m) as H1.
  assert (HCL : CL P m = (1 - sigma P m) * CL_linear P m
                         + sigma P m * CL_flat_plate m).
  { unfold CL, CL_linear, CL_flat_plate. ring. }
  split; [lra|]. split.
  { intros m' Ha. unfold sigma. rewrite Ha.
    replace (- MAV.M P * (- _alpha m - MAV.alpha0 P))
      with (MAV.M P * (_alpha m + MAV.alpha0 P)) by ring.
    replace (MAV.M P * (- _alpha m + MAV.alpha0 P))
      with (- MAV.M P * (_alpha m - MAV.alpha0 P)) by ring.
    f_equal; ring. }
  split; [exact HCL|].
  rewrite HCL. unfold Rmin, Rmax.
  destruct (Rle_dec (CL_linear P m) (CL_flat_plate m)); split; nra.
Qed.

(** X11.  The longitudinal body force is the pair (drag, lift) turned by the
    angle of attack: the returned [fx] and [fz] satisfy
    [fx^2 + fz^2 = F_drag^2 + F_lift^2]. *)
Theorem longitudinal_force_magnitude (m : MavDynamics) (delta : MsgDelta) :
  let fm := fst (_forces_moments P Q2R Q2E m delta) in
  item fm 0 ^ 2 + item fm 2 ^ 2 = F_drag P m delta ^ 2 + F_lift P m delta ^ 2.
Proof.
  destruct (forces_moments_entries Q2R Q2E P m delta) as (Hx & _ & Hz & _).
  cbn zeta in *. rewrite Hx, Hz.
  pose proof (sin2_cos2 (_alpha m)) as H. unfold Rsqr in H.
  set (sa := sin (_alpha m)) in *. set (ca := cos (_alpha m)) in *.
  set (D := F_drag P m delta). set (L := F_lift P m delta).
  replace ((- D * ca + L * sa) ^ 2 + (- D * sa - L * ca) ^ 2)
    with ((D ^ 2 + L ^ 2) * (sa * sa + ca * ca)) by ring.
  rewrite H. ring.
Qed.

(** X12.  The roll rate, state entry 10, enters the returned vector through
    the side force only: writing another roll rate into the state leaves
    [fx], [fz] and the three moments [Mx], [My], [Mz] unchanged.  The roll
    moment reads the yaw rate in its damping term. *)
Theorem roll_rate_enters_side_force_only (m : MavDynamics) (delta : MsgDelta)
        (p' : R) :
  let m' := set_state m (set_item (_state m) 10 p') in
  let fm := fst (_forces_moments P Q2R Q2E m delta) in
  let fm' := fst (_forces_moments P Q2R Q2E m' delta) in
  item fm' 0 = item fm 0 /\ item fm' 2 = item fm 2 /\
  item fm' 3 = item fm 3 /\ item fm' 4 = item fm 4 /\ item fm' 5 = item fm 5.
Proof.
  intros m' fm fm'.
  destruct (forces_moments_entries Q2R Q2E P m delta)
    as (Hx & _ & Hz & H3 & H4 & H5).
  destruct (forces_moments_entries Q2R Q2E P m' delta)
    as (Hx' & _ & Hz' & H3' & H4' & H5').
  cbn zeta in *. fold fm in Hx, Hz, H3, H4, H5.
  fold fm' in Hx', Hz', H3', H4', H5'.
  assert (Hq : q_dynamic P m' = q_dynamic P m) by reflexivity.
  assert (H11 : item (_state m') 11 = item (_state m) 11)
    by (unfold m', set_state; cbn [_state];
        apply item_set_item_other; lia).
  assert (H12 : item (_state m') 12 = item (_state m) 12)
    by (unfold m', set_state; cbn [_state];
        apply item_set_item_other; lia).
  assert (HL : F_lift P m' delta = F_lift P m delta)
    by (unfold F_lift; rewrite H11; reflexivity).
  assert (HD : F_drag P m' delta = F_drag P m delta)
    by (unfold F_drag; rewrite H11; reflexivity).
  rewrite Hx', Hz', H3', H4', H5', Hx, Hz, H3, H4, H5, HL, HD, Hq, H11, H12.
  repeat split; reflexivity.
Qed.

End Aerodynamics.

(** ** The motor speed *)

Section MotorSpeed.

Variable P : MAV.t.

Lemma motor_output_by_speed (Va delta_t : R) :
  let Omega := Omega_op P Va delta_t in
  let J := 2 * PI * Va / (Omega * MAV.D_prop P) in
  let n := Omega / (2 * PI) in
  _motor_thrust_torque P Va delta_t
  = (MAV.rho P * n ^ 2 * MAV.D_prop P ^ 4
     * (MAV.C_T2 P * J ^ 2 + MAV.C_T1 P * J + MAV.C_T0 P),
     MAV.rho P * n ^ 2 * MAV.D_prop P ^ 5
     * (MAV.C_Q2 P * J ^ 2 + MAV.C_Q1 P * J + MAV.C_Q0 P)).
Proof. reflexivity. Qed.

Lemma selected_root (a b0 c0 : R) :
  a <> 0 -> 0 <= b0 ^ 2 - 4 * a * c0 ->
  let w := (- b0 + sqrt (b0 ^ 2 - 4 * a * c0)) / (2 * a) in
  a * w ^ 2 + b0 * w + c0 = 0.
Proof.
  intros Ha Hd w.
  pose proof (sqrt_sqrt _ Hd) as Hs.
  set (s := sqrt (b0 ^ 2 - 4 * a * c0)) in *.
  assert (Hw : 2 * a * w = - b0 + s) by (unfold w; field; exact Ha).
  assert (H4 : 4 * a * (a * w ^ 2 + b0 * w + c0) = 0).
  { replace (4 * a * (a * w ^ 2 + b0 * w + c0))
      with ((2 * a * w) ^ 2 + 2 * b0 * (2 * a * w) + 4 * a * c0) by ring.
    rewrite Hw. nra. }
  apply Rmult_integral in H4. destruct H4 as [H4|H4]; [lra|exact H4].
Qed.

Lemma selected_root_largest (a b0 c0 x : R) :
  0 < a -> 0 <= b0 ^ 2 - 4 * a * c0 ->
  a * x ^ 2 + b0 * x + c0 = 0 ->
  x <= (- b0 + sqrt (b0 ^ 2 - 4 * a * c0)) / (2 * a).
Proof.
  intros Ha Hd Hx.
  pose proof (sqrt_sqrt _ Hd) as Hs.
  pose proof (sqrt_pos (b0 ^ 2 - 4 * a * c0)) as Hp.
  set (s := sqrt (b0 ^ 2 - 4 * a * c0)) in *.
  assert (Hsq : (2 * a * x + b0) ^ 2 = s * s) by (rewrite Hs; nra).
  assert (Hle : 2 * a * x + b0 <= s) by nra.
  apply Rmult_le_reg_r with (2 * a); [lra|].
  unfold Rdiv. rewrite Rmult_assoc, Rinv_l by lra. lra.
Qed.

(** X13.  When the leading coefficient [a] of the motor quadratic is not
    zero and the discriminant is not negative, the motor speed the source
    selects solves [a w^2 + b w + c = 0]; when moreover [a] is positive it
    is the larger of the solutions.  Thrust and torque are computed from
    that speed. *)
Theorem motor_speed_solves_quadratic (Va delta_t : R) :
  let a := fst (fst (motor_quadratic P Va delta_t)) in
  let b0 := snd (fst (motor_quadratic P Va delta_t)) in
  let c0 := snd (motor_quadratic P Va delta_t) in
  let Omega := Omega_op P Va delta_t in
  a <> 0 -> 0 <= b0 ^ 2 - 4 * a * c0 ->
  a * Omega ^ 2 + b0 * Omega + c0 = 0 /\
  (0 < a -> forall x, a * x ^ 2 + b0 * x + c0 = 0 -> x <= Omega) /\
  fst (_motor_thrust_torque P Va delta_t)
  = MAV.rho P * (Omega / (2 * PI)) ^ 2 * MAV.D_prop P ^ 4
    * (MAV.C_T2 P * (2 * PI * Va / (Omega * MAV.D_prop P)) ^ 2
       + MAV.C_T1 P * (2 * PI * Va / (Omega * MAV.D_prop P)) + MAV.C_T0 P).
Proof.
  intros a b0 c0 Omega Ha Hd.
  assert (HO : Omega = (- b0 + sqrt (b0 ^ 2 - 4 * a * c0)) / (2 * a))
    by reflexivity.
  split; [rewrite HO; now apply selected_root|].
  split; [intros Hpos x Hx; rewrite HO; now apply selected_root_largest|].
  subst Omega. now rewrite motor_output_by_speed.
Qed.

End MotorSpeed.

Lemma motor_speed_solves_quadratic_witness :
  let a := fst (fst (motor_quadratic aerosonde 25 0.5)) in
  let b0 := snd (fst (motor_quadratic aerosonde 25 0.5)) in
  let c0 := snd (motor_quadratic aerosonde 25 0.5) in
  a <> 0 /\ 0 <= b0 ^ 2 - 4 * a * c0 /\
  a * Omega_op aerosonde 25 0.5 ^ 2 + b0 * Omega_op aerosonde 25 0.5 + c0 = 0.
Proof.
  intros a b0 c0.
  pose proof (aerosonde_motor_regular 25 0.5) as H.
  assert (Hac : 0 < a /\ c0 < 0).
  { subst a c0. destruct (motor_quadratic aerosonde 25 0.5) as [[x y] z].
    exact H. }
  destruct Hac as (Ha & Hc).
  destruct (motor_speed_positive a b0 c0 Ha Hc) as (Hd & _).
  assert (Ha0 : a <> 0) by lra.
  assert (Hd0 : 0 <= b0 ^ 2 - 4 * a * c0) by lra.
  split; [exact Ha0|]. split; [exact Hd0|].
  apply (motor_speed_solves_quadratic aerosonde 25 0.5 Ha0 Hd0).
Defined.

(** X14.  When the leading coefficient of the motor quadratic is positive and
    its constant coefficient negative, the discriminant is positive and the
    selected motor speed is positive: the square root and the later division
    by the speed are then well defined. *)
Theorem motor_speed_positive_regime (P : MAV.t) (Va delta_t : R) :
  let a := fst (fst (motor_quadratic P Va delta_t)) in
  let b0 := snd (fst (motor_quadratic P Va delta_t)) in
  let c0 := snd (motor_quadratic P Va delta_t) in
  0 < a -> c0 < 0 ->
  0 < b0 ^ 2 - 4 * a * c0 /\ 0 < Omega_op P Va delta_t.
Proof.
  intros a b0 c0 Ha Hc.
  exact (motor_speed_positive a b0 c0 Ha Hc).
Qed.

Lemma motor_speed_positive_regime_witness :
  0 < fst (fst (motor_quadratic aerosonde 25 0.5)) /\
  snd (motor_quadratic aerosonde 25 0.5) < 0 /\
  0 < Omega_op aerosonde 25 0.5.
Proof.
  pose proof (aerosonde_motor_regular 25 0.5) as H.
  assert (Hac : 0 < fst (fst (motor_quadratic aerosonde 25 0.5)) /\
                snd (motor_quadratic aerosonde 25 0.5) < 0).
  { destruct (motor_quadratic aerosonde 25 0.5) as [[x y] z]. exact H. }
  destruct Hac as (Ha & Hc).
  split; [exact Ha|]. split; [exact Hc|].
  apply (motor_speed_positive_regime aerosonde 25 0.5 Ha Hc).
Defined.

(** ** The constructor *)

Section Constructor.

Variable P : MAV.t.
Variable Q2R : Vec -> Mat3.
Variable M0 : Msg.MsgState.

Lemma init_air_velocity (Ts : R) :
  norm (air_velocity Q2R (init P Q2R M0 Ts) zero_wind)
  = sqrt (MAV.u0 P ^ 2 + MAV.v0 P ^ 2 + MAV.w0 P ^ 2).
Proof.
  rewrite norm_air_velocity. unfold air_velocity.
  destruct (init_fields P Q2R M0 Ts) as (_ & -> & _).
  destruct (Q2R _) as [[[a1 a2] a3] [[b1 b2] b3] [[c1 c2] c3]].
  cbn. f_equal. ring.
Qed.

Lemma sqrt_sum_is_first (u v w : R) :
  sqrt (u ^ 2 + v ^ 2 + w ^ 2) = u <-> 0 <= u /\ v = 0 /\ w = 0.
Proof.
  assert (H0 : 0 <= u ^ 2 + v ^ 2 + w ^ 2) by nra.
  split.
  - intros H.
    pose proof (sqrt_pos (u ^ 2 + v ^ 2 + w ^ 2)) as Hp.
    pose proof (sqrt_sqrt _ H0) as Hs. rewrite H in Hs, Hp.
    assert (Hv : v ^ 2 + w ^ 2 = 0) by nra.
    assert (v = 0) by nra. assert (w = 0) by nra. auto.
  - intros (Hu & -> & ->).
    replace (u ^ 2 + 0 ^ 2 + 0 ^ 2) with (u * u) by ring.
    now apply sqrt_square.
Qed.

(** X15.  The constructor stores the initial forward speed [u0] as airspeed
    and 0 as angle of attack and sideslip, overwriting what its own call of
    [_update_velocity_data] computed.  The stored airspeed is the one
    [_update_velocity_data] gives for the initial state in still air exactly
    when [u0] is not negative and [v0] and [w0] are zero. *)
Theorem constructor_air_data (Ts : R) :
  let m := init P Q2R M0 Ts in
  _Va m = MAV.u0 P /\ _alpha m = 0 /\ _beta m = 0 /\
  (_Va (_update_velocity_data Q2R m zero_wind) = _Va m
   <-> 0 <= MAV.u0 P /\ MAV.v0 P = 0 /\ MAV.w0 P = 0).
Proof.
  intros m.
  destruct (init_fields P Q2R M0 Ts) as (_ & _ & _ & _ & HV & Ha & Hb & _).
  fold m in HV, Ha, Hb.
  split; [exact HV|]. split; [exact Ha|]. split; [exact Hb|].
  destruct (update_velocity_data_values Q2R m zero_wind) as (-> & _).
  unfold m at 1. rewrite init_air_velocity, HV.
  apply sqrt_sum_is_first.
Qed.

End Constructor.

(** ** Equilibrium of attitude and rates *)

Section Equilibrium.

Variable P : MAV.t.
Variable Q2R : Vec -> Mat3.
Variable Q2E : Vec -> R * R * R.

(** X16.  From a 13-entry state with unit quaternion and zero body rates, a
    step whose moments are zero keeps the quaternion and the body rates as
    they are, whatever the forces, the velocity and the step size. *)
Theorem steady_attitude_step (m : MavDynamics) (delta : MsgDelta) (wind : Vec) :
  length (_state m) = 13%nat ->
  norm (slice 6 10 (_state m)) = 1 ->
  item (_state m) 10 = 0 -> item (_state m) 11 = 0 ->
  item (_state m) 12 = 0 ->
  item (fst (_forces_moments P Q2R Q2E m delta)) 3 = 0 ->
  item (fst (_forces_moments P Q2R Q2E m delta)) 4 = 0 ->
  item (fst (_forces_moments P Q2R Q2E m delta)) 5 = 0 ->
  forall i, (6 <= i)%nat ->
            item (_state (update P Q2R Q2E m delta wind)) i = item (_state m) i.
Proof.
  intros Hlen Hn Hp Hq Hr Hl Hm Hk i Hi.
  set (m1 := integrate P Q2R Q2E m delta).
  assert (Htail : forall j, (6 <= j)%nat -> item (_state m1) j = item (_state m) j).
  { intros j Hj. unfold m1. rewrite integrate_state.
    now apply rk4_steady_attitude. }
  assert (Hlen1 : length (_state m1) = 13%nat) by now apply length_integrate.
  assert (Hn1 : norm (slice 6 10 (_state m1)) = 1).
  { rewrite slice_items_6_10 by lia. rewrite !Htail by lia.
    rewrite slice_items_6_10 in Hn by lia. exact Hn. }
  rewrite update_state. fold m1.
  rewrite (normalize_unit_state m1 Hlen1 Hn1). now apply Htail.
Qed.

End Equilibrium.

Lemma steady_attitude_step_witness :
  slice 6 13 (_state (update aerosonde quaternion_rotation quaternion_euler
                             mav0 delta_trim zero_wind))
  = [item (_state mav0) 6; item (_state mav0) 7; item (_state mav0) 8;
     item (_state mav0) 9; item (_state mav0) 10; item (_state mav0) 11;
     item (_state mav0) 12].
Proof.
  destruct mav0_unit_quaternion as (Hlen & Hn).
  destruct mav0_trim_moments as (H3 & H4 & H5).
  destruct mav0_fields as (_ & Hs & _).
  assert (Hp : item (_state mav0) 10 = 0) by (rewrite Hs; reflexivity).
  assert (Hq : item (_state mav0) 11 = 0) by (rewrite Hs; reflexivity).
  assert (Hr : item (_state mav0) 12 = 0) by (rewrite Hs; reflexivity).
  pose proof (steady_attitude_step aerosonde quaternion_rotation
                quaternion_euler mav0 delta_trim zero_wind
                Hlen Hn Hp Hq Hr H3 H4 H5) as H.
  pose proof (length_update aerosonde quaternion_rotation quaternion_euler
                mav0 delta_trim zero_wind Hlen) as HL.
  set (s := _state (update aerosonde quaternion_rotation quaternion_euler
                           mav0 delta_trim zero_wind)) in *.
  rewrite <- !H by lia.
  unfold slice, item.
  do 13 (destruct s as [|? s]; [simpl in HL; lia|]).
  destruct s; [reflexivity|simpl in HL; lia].
Defined.

(** ** Independence of position *)

Section Translation.

Variable P : MAV.t.
Variable Q2R : Vec -> Mat3.
Variable Q2E : Vec -> R * R * R.

Lemma item_skipn (n : nat) (s : Vec) (j : nat) :
  item (skipn n s) j = item s (n + j).
Proof. unfold item. apply nth_skipn. Qed.

Lemma derivatives_position_free (s s' fm : Vec) :
  skipn 3 s = skipn 3 s' ->
  _derivatives P Q2R s fm = _derivatives P Q2R s' fm.
Proof.
  intros H.
  assert (E : forall j, item s (3 + j) = item s' (3 + j))
    by (intro j; rewrite <- !item_skipn, H; reflexivity).
  pose proof (E 0%nat) as E3. pose proof (E 1%nat) as E4.
  pose proof (E 2%nat) as E5. pose proof (E 3%nat) as E6.
  pose proof (E 4%nat) as E7. pose proof (E 5%nat) as E8.
  pose proof (E 6%nat) as E9. pose proof (E 7%nat) as E10.
  pose proof (E 8%nat) as E11. pose proof (E 9%nat) as E12.
  cbn [Nat.add] in *.
  unfold _derivatives.
  rewrite E3, E4, E5, E6, E7, E8, E9, E10, E11, E12. reflexivity.
Qed.

Lemma translate_cons (d0 d1 d2 a b0 c0 : R) (s : Vec) :
  translate [d0; d1; d2] (a :: b0 :: c0 :: s)
  = (a + d0) :: (b0 + d1) :: (c0 + d2) :: s.
Proof. reflexivity. Qed.

Lemma skipn_translate (d s : Vec) :
  length d = 3%nat -> (3 <= length s)%nat ->
  skipn 3 (translate d s) = skipn 3 s.
Proof.
  intros Hd Hs.
  destruct d as [|d0 [|d1 [|d2 [|? ?]]]]; simpl in Hd; try lia.
  destruct s as [|a [|b0 [|c0 s]]]; simpl in Hs; try lia.
  reflexivity.
Qed.

Lemma vadd_translate (d s x : Vec) :
  length d = 3%nat -> (3 <= length s)%nat -> (3 <= length x)%nat ->
  vadd (translate d s) x = translate d (vadd s x).
Proof.
  intros Hd Hs Hx.
  destruct d as [|d0 [|d1 [|d2 [|? ?]]]]; simpl in Hd; try lia.
  destruct s as [|a [|b0 [|c0 s]]]; simpl in Hs; try lia.
  destruct x as [|x0 [|x1 [|x2 x]]]; simpl in Hx; try lia.
  rewrite translate_cons. cbn [vadd]. rewrite translate_cons.
  f_equal; [ring|f_equal; [ring|f_equal; ring]].
Qed.

Lemma set_item_translate (d s : Vec) (i : nat) (v : R) :
  length d = 3%nat -> (3 <= length s)%nat -> (3 <= i)%nat ->
  set_item (translate d s) i v = translate d (set_item s i v).
Proof.
  intros Hd Hs Hi.
  destruct d as [|d0 [|d1 [|d2 [|? ?]]]]; simpl in Hd; try lia.
  destruct s as [|a [|b0 [|c0 s]]]; simpl in Hs; try lia.
  destruct i as [|[|[|i]]]; try lia.
  reflexivity.
Qed.

Lemma item_translate (d s : Vec) (i : nat) :
  length d = 3%nat -> (3 <= length s)%nat -> (3 <= i)%nat ->
  item (translate d s) i = item s i.
Proof.
  intros Hd Hs Hi.
  replace i with (3 + (i - 3))%nat by lia.
  rewrite <- !item_skipn, skipn_translate; auto.
Qed.

Lemma slice_translate (d s : Vec) (a b0 : nat) :
  length d = 3%nat -> (3 <= length s)%nat -> (3 <= a)%nat ->
  slice a b0 (translate d s) = slice a b0 s.
Proof.
  intros Hd Hs Ha. unfold slice.
  replace a with ((a - 3) + 3)%nat by lia.
  rewrite <- !skipn_skipn, skipn_translate; auto.
Qed.

Lemma rk4_translate (d s fm : Vec) (dt : R) :
  length d = 3%nat -> length s = 13%nat ->
  rk4_step (fun x => _derivatives P Q2R x fm) dt (translate d s)
  = translate d (rk4_step (fun x => _derivatives P Q2R x fm) dt s).
Proof.
  intros Hd Hs.
  assert (Hstage : forall c k, length k = 13%nat ->
            _derivatives P Q2R (vadd (translate d s) (vscale c k)) fm
            = _derivatives P Q2R (vadd s (vscale c k)) fm).
  { intros c k Hk.
    rewrite vadd_translate by (rewrite ?length_vscale; lia).
    apply derivatives_position_free, skipn_translate; auto.
    rewrite length_vadd, length_vscale. lia. }
  assert (Lk : forall x, length (_derivatives P Q2R x fm) = 13%nat)
    by (intro; apply length_derivatives).
  unfold rk4_step.
  rewrite (derivatives_position_free (translate d s) s fm)
    by (apply skipn_translate; auto; lia).
  rewrite !Hstage by apply Lk.
  apply vadd_translate; auto; try lia.
  rewrite length_vscale, !length_vadd, !length_vscale, !Lk. simpl. lia.
Qed.

Lemma forces_moments_translate (m : MavDynamics) (delta : MsgDelta) (d : Vec) :
  length d = 3%nat -> (3 <= length (_state m))%nat ->
  fst (_forces_moments P Q2R Q2E (set_state m (translate d (_state m))) delta)
  = fst (_forces_moments P Q2R Q2E m delta).
Proof.
  intros Hd Hs.
  unfold _forces_moments, F_lift, F_drag, set_state.
  cbn [_state _Va _alpha _beta _forces].
  rewrite slice_translate, !item_translate by (auto; lia).
  destruct (Q2E _) as [[? ?] ?].
  destruct (_motor_thrust_torque P (_Va m) (throttle delta)) as [? ?].
  reflexivity.
Qed.

Lemma normalize_translate (m1 m2 : MavDynamics) (d : Vec) :
  length d = 3%nat -> length (_state m2) = 13%nat ->
  _state m1 = translate d (_state m2) ->
  _state (normalize_quaternion m1)
  = translate d (_state (normalize_quaternion m2)).
Proof.
  intros Hd Hs H.
  unfold normalize_quaternion, set_state; cbn [_state].
  repeat rewrite item_set_item_other by lia.
  rewrite H.
  rewrite !item_translate by (auto; lia).
  rewrite !set_item_translate by (auto; rewrite ?length_set_item; lia).
  reflexivity.
Qed.

(** X17.  The dynamics do not depend on where the aircraft is: starting from
    a 13-entry state moved by [d] in north, east and down, [update] yields
    the state it yields from the original one, moved by [d], and the same
    airspeed, angle of attack and sideslip. *)
Theorem update_position_invariant (m : MavDynamics) (delta : MsgDelta)
        (wind d : Vec) :
  length (_state m) = 13%nat -> length d = 3%nat ->
  let m_d := external_set_state m (translate d (_state m)) in
  _state (update P Q2R Q2E m_d delta wind)
  = translate d (_state (update P Q2R Q2E m delta wind)) /\
  _Va (update P Q2R Q2E m_d delta wind) = _Va (update P Q2R Q2E m delta wind) /\
  _alpha (update P Q2R Q2E m_d delta wind)
  = _alpha (update P Q2R Q2E m delta wind) /\
  _beta (update P Q2R Q2E m_d delta wind)
  = _beta (update P Q2R Q2E m delta wind).
Proof.
  intros Hs Hd m_d.
  assert (Hint : _state (integrate P Q2R Q2E m_d delta)
                 = translate d (_state (integrate P Q2R Q2E m delta))).
  { rewrite !integrate_state. unfold m_d, external_set_state.
    rewrite forces_moments_translate by (auto; lia).
    unfold set_state; cbn [_state _ts_simulation].
    now apply rk4_translate. }
  assert (Hlen : length (_state (integrate P Q2R Q2E m delta)) = 13%nat)
    by now apply length_integrate.
  assert (Hnorm : _state (normalize_quaternion (integrate P Q2R Q2E m_d delta))
                  = translate d (_state (normalize_quaternion
                                           (integrate P Q2R Q2E m delta))))
    by now apply normalize_translate.
  split; [now rewrite !update_state|].
  destruct (update_air_data P Q2R Q2E m_d delta wind) as (-> & -> & ->).
  destruct (update_air_data P Q2R Q2E m delta wind) as (-> & -> & ->).
  set (n1 := normalize_quaternion (integrate P Q2R Q2E m_d delta)) in *.
  set (n2 := normalize_quaternion (integrate P Q2R Q2E m delta)) in *.
  assert (Hair : air_velocity Q2R n1 wind = air_velocity Q2R n2 wind).
  { unfold air_velocity. rewrite Hnorm.
    assert (3 <= length (_state n2))%nat
      by (unfold n2; rewrite length_normalize_quaternion; lia).
    now rewrite !slice_translate by (auto; lia). }
  destruct (update_velocity_data_values Q2R n1 wind) as (-> & -> & ->).
  destruct (update_velocity_data_values Q2R n2 wind) as (-> & -> & ->).
  rewrite Hair. auto.
Qed.

End Translation.

Lemma update_position_invariant_witness :
  let d := [10; -5; 2] in
  let m_d := external_set_state mav0 (translate d (_state mav0)) in
  length (_state mav0) = 13%nat /\ length d = 3%nat /\
  _state (update aerosonde quaternion_rotation quaternion_euler m_d
                 delta_trim zero_wind)
  = translate d (_state (update aerosonde quaternion_rotation quaternion_euler
                                mav0 delta_trim zero_wind)).
Proof.
  intros d m_d.
  destruct mav0_unit_quaternion as (Hlen & _).
  assert (Hd : length d = 3%nat) by reflexivity.
  split; [exact Hlen|]. split; [exact Hd|].
  apply (update_position_invariant aerosonde quaternion_rotation
           quaternion_euler mav0 delta_trim zero_wind d Hlen Hd).
Defined.

(** ** Invariants and edge cases of a run *)

Section RunInvariants.

Variable P : MAV.t.
Variable Q2R : Vec -> Mat3.
Variable Q2E : Vec -> R * R * R.
Variable M0 : Msg.MsgState.

Lemma update_ts (m : MavDynamics) (delta : MsgDelta) (wind : Vec) :
  _ts_simulation (update P Q2R Q2E m delta wind) = _ts_simulation m.
Proof.
  unfold update.
  destruct (update_true_state_frame Q2R Q2E
              (_update_velocity_data Q2R
                 (normalize_quaternion (integrate P Q2R Q2E m delta)) wind))
    as (_ & -> & _).
  destruct (update_velocity_data_frame Q2R
              (normalize_quaternion (integrate P Q2R Q2E m delta)) wind)
    as (_ & -> & _).
  destruct (normalize_quaternion_frame (integrate P Q2R Q2E m delta))
    as (-> & _).
  now destruct (integrate_frame P Q2R Q2E m delta) as (-> & _).
Qed.

(** X18.  Along any sequence of [update] calls from the constructor the step
    size stays the one given to the constructor, the state keeps 13 entries
    and the cached force vector keeps 3. *)
Theorem run_keeps_shape (Ts : R) (calls : list (MsgDelta * Vec)) :
  let m := run P Q2R Q2E (init P Q2R M0 Ts) calls in
  _ts_simulation m = Ts /\ length (_state m) = 13%nat /\
  length (_forces m) = 3%nat.
Proof.
  intros m.
  assert (Hr : reachable P Q2R Q2E M0 Ts m) by apply run_reachable.
  split; [|split].
  - clear - Hr. induction Hr as [|m delta wind _ IH].
    + now destruct (init_fields P Q2R M0 Ts) as (-> & _).
    + now rewrite update_ts.
  - eapply reachable_length; eauto.
  - eapply reachable_forces_length; eauto.
Qed.

Lemma vadd_zero_scale (s k : Vec) :
  length s = length k -> vadd s (vscale (0 / 6) k) = s.
Proof.
  revert k; induction s as [|a s IH]; intros [|b0 k] H; simpl in *;
    try discriminate; auto.
  f_equal; [field|]. apply IH. congruence.
Qed.

(** X19.  With a step size of zero and a stored airspeed that is not zero,
    so that the forces are numbers, the integration leaves a 13-entry state
    as it is, and [update] changes nothing in the state but the scaling of
    the quaternion. *)
Theorem zero_step_keeps_state (m : MavDynamics) (delta : MsgDelta) (wind : Vec) :
  _ts_simulation m = 0 -> length (_state m) = 13%nat -> _Va m <> 0 ->
  _state (integrate P Q2R Q2E m delta) = _state m /\
  _state (update P Q2R Q2E m delta wind) = _state (normalize_quaternion m).
Proof.
  intros Ht Hlen _.
  assert (Hint : _state (integrate P Q2R Q2E m delta) = _state m).
  { rewrite integrate_state, Ht. unfold rk4_step.
    apply vadd_zero_scale.
    rewrite !length_vadd, !length_vscale, !length_derivatives, Hlen.
    reflexivity. }
  split; [exact Hint|].
  rewrite update_state.
  unfold normalize_quaternion, set_state; cbn [_state].
  rewrite Hint. reflexivity.
Qed.

(** X20.  The position rate that [_derivatives] computes for the state of an
    object with 13 state entries is the inertial velocity from which
    [_update_true_state] takes ground speed, flight path angle and course. *)
Theorem position_rate_is_inertial_velocity (m : MavDynamics) (fm : Vec) :
  length (_state m) = 13%nat ->
  firstn 3 (_derivatives P Q2R (_state m) fm) = pdot Q2R m /\
  Msg.Vg (true_state (_update_true_state Q2R Q2E m))
  = norm (firstn 3 (_derivatives P Q2R (_state m) fm)).
Proof.
  intros Hlen.
  assert (H : firstn 3 (_derivatives P Q2R (_state m) fm) = pdot Q2R m).
  { unfold pdot, _derivatives.
    rewrite slice_items_6_10 by lia.
    assert (Hv : slice 3 6 (_state m)
                 = [item (_state m) 3; item (_state m) 4; item (_state m) 5]).
    { unfold slice, item.
      destruct (_state m) as [|? [|? [|? [|? [|? [|? l]]]]]];
        simpl in Hlen; try lia. reflexivity. }
    rewrite Hv. reflexivity. }
  split; [exact H|]. rewrite H.
  unfold _update_true_state, pdot. destruct (Q2E _) as [[? ?] ?]. reflexivity.
Qed.

End RunInvariants.

Section ZeroCases.

Variable Q2R : Vec -> Mat3.

Lemma sqrt_sum_zero (u v w : R) :
  sqrt (u ^ 2 + v ^ 2 + w ^ 2) = 0 <-> u = 0 /\ v = 0 /\ w = 0.
Proof.
  assert (H0 : 0 <= u ^ 2 + v ^ 2 + w ^ 2) by nra.
  split.
  - intros H. apply sqrt_eq_0 in H; [|exact H0].
    assert (u = 0) by nra. assert (v = 0) by nra. assert (w = 0) by nra. auto.
  - intros (-> & -> & ->).
    replace (0 ^ 2 + 0 ^ 2 + 0 ^ 2) with 0 by ring. apply sqrt_0.
Qed.

(** X21.  The stored airspeed is zero exactly when the relative wind is the
    zero vector, and then both angles are 0; a relative wind without vertical
    component gives angle of attack 0 and one without lateral component
    gives sideslip 0. *)
Theorem air_data_zero_cases (m : MavDynamics) (wind : Vec) :
  let v := air_velocity Q2R m wind in
  let m' := _update_velocity_data Q2R m wind in
  (_Va m' = 0 <-> item v 0 = 0 /\ item v 1 = 0 /\ item v 2 = 0) /\
  (_Va m' = 0 -> _alpha m' = 0 /\ _beta m' = 0) /\
  (item v 2 = 0 -> _alpha m' = 0) /\
  (item v 1 = 0 -> _beta m' = 0).
Proof.
  intros v m'.
  destruct (update_velocity_data_values Q2R m wind) as (HV & Ha & Hb).
  cbn zeta in HV, Ha, Hb. fold v in HV, Ha, Hb. fold m' in HV, Ha, Hb.
  assert (HN : norm v = sqrt (item v 0 ^ 2 + item v 1 ^ 2 + item v 2 ^ 2))
    by apply norm_air_velocity.
  assert (Hz : _Va m' = 0 <-> item v 0 = 0 /\ item v 1 = 0 /\ item v 2 = 0)
    by (rewrite HV, HN; apply sqrt_sum_zero).
  split; [exact Hz|]. split; [|split].
  - intros H0. destruct (proj1 Hz H0) as (Hu & _ & _).
    rewrite Ha, Hb.
    destruct (Req_dec_T (item v 0) 0); [|contradiction].
    destruct (Req_dec_T (norm v) 0); [auto|congruence].
  - intros Hw. rewrite Ha, Hw.
    destruct (Req_dec_T (item v 0) 0); [reflexivity|].
    unfold Rdiv. rewrite Rmult_0_l. apply atan_0.
  - intros Hv. rewrite Hb, Hv.
    destruct (Req_dec_T (norm v) 0); [reflexivity|].
    unfold Rdiv. rewrite Rmult_0_l. apply asin_0.
Qed.

End ZeroCases.

Lemma zero_step_keeps_state_witness :
  let m := init aerosonde quaternion_rotation msg_zero 0 in
  _ts_simulation m = 0 /\ length (_state m) = 13%nat /\ _Va m <> 0 /\
  _state (integrate aerosonde quaternion_rotation quaternion_euler m delta_trim)
  = _state m.
Proof.
  intros m.
  destruct (init_fields aerosonde quaternion_rotation msg_zero 0)
    as (Ht & Hs & _ & _ & HV & _).
  fold m in Ht, Hs, HV.
  assert (Hlen : length (_state m) = 13%nat) by (rewrite Hs; reflexivity).
  assert (HVa : _Va m <> 0) by (rewrite HV; cbn [MAV.u0 aerosonde]; lra).
  split; [exact Ht|]. split; [exact Hlen|]. split; [exact HVa|].
  apply (zero_step_keeps_state aerosonde quaternion_rotation quaternion_euler
           m delta_trim zero_wind Ht Hlen HVa).
Defined.

Lemma position_rate_is_inertial_velocity_witness :
  length (_state mav0) = 13%nat /\
  firstn 3 (_derivatives aerosonde quaternion_rotation (_state mav0)
                         [0; 0; 0; 0; 0; 0])
  = pdot quaternion_rotation mav0.
Proof.
  destruct mav0_unit_quaternion as (Hlen & _).
  split; [exact Hlen|].
  apply (position_rate_is_inertial_velocity aerosonde quaternion_rotation
           quaternion_euler mav0 [0; 0; 0; 0; 0; 0] Hlen).
Defined.

Lemma mav_still_calm_air :
  air_velocity quaternion_rotation mav_still zero_wind
  = [0 - (0 + 0); 0 - (0 + 0); 0 - (0 + 0)].
Proof.
  unfold air_velocity. cbn. repeat f_equal; ring.
Qed.

(** The first scenario of the driver script: no motion and no wind. *)
Lemma air_data_zero_cases_witness :
  let m' := _update_velocity_data quaternion_rotation mav_still zero_wind in
  _Va m' = 0 /\ _alpha m' = 0 /\ _beta m' = 0.
Proof.
  intros m'.
  destruct (air_data_zero_cases quaternion_rotation mav_still zero_wind)
    as (Hz & Hzero & _).
  cbn zeta in Hz, Hzero. fold m' in Hz, Hzero.
  assert (HV : _Va m' = 0).
  { apply Hz. rewrite mav_still_calm_air. cbn [item nth].
    repeat split; lra. }
  split; [exact HV|]. exact (Hzero HV).
Defined.
